(** * Film data-warehouse ETL: transform and load

    A shallow embedding of [etl_film_datawarehouse.py]: the cell values
    of the pandas frame, the cleaning helpers [clean_numeric],
    [parse_excel_date] and [extract_time_components], the row-wise
    content of [transform_data], and the four loaders running against a
    psycopg2 connection in its default (non-autocommit) mode.

    Python floats are IEEE binary64 and are modelled by Rocq's primitive
    floats; Python integers are unbounded and are modelled by [Z]. What
    the script leaves to its environment is a parameter: the text-level
    rules of Python and pandas and the range of pandas' timestamps
    ([PyRuntime]), and the rows the database server accepts
    ([Schema]). *)

From Stdlib Require Import ZArith String Ascii Floats DecimalString DecimalZ DecimalPos.
From stdpp Require Import base option list gmap.

Local Open Scope Z_scope.

(** ** Cell values *)

(** A pandas [Timestamp] (a subclass of [datetime]) is a count of
    nanoseconds since 1970-01-01T00:00, its [.value]. *)
Record Timestamp := mkTimestamp { ts_value : Z }.

(** What a cell of the frame, or a Python variable holding one, can be.
    [VNone] stands for the missing cell ([None], and pandas' [NaN] and
    [NaT] once the cell sits in a column); a [VFloat] carrying an IEEE
    NaN is missing too. *)
Inductive value :=
| VNone
| VInt (z : Z)
| VFloat (f : float)
| VStr (s : string)
| VDate (d : Timestamp).

(** [pd.isna] / [pd.notna] on a scalar. *)
Definition isna (v : value) : bool :=
  match v with
  | VNone => true
  | VFloat f => is_nan f
  | _ => false
  end.

Definition notna (v : value) : bool := negb (isna v).

(** ** Python's numeric conversions *)

(** [float(n)] for an integer [n]: the nearest binary64 (ties to even);
    [OverflowError], here [None], when that is out of range. *)
Definition float_of_int (z : Z) : option float :=
  let f := SF2Prim (binary_normalize prec emax z 0 false) in
  if is_infinity f then None else Some f.

(** [int(x)] for a float [x]: truncation towards zero; [ValueError] on
    NaN and [OverflowError] on an infinity. *)
Definition int_of_float (f : float) : option Z :=
  match Prim2SF f with
  | S754_zero _ => Some 0
  | S754_finite s m e =>
      let a := Z.shiftl (Z.pos m) e in
      Some (if s then - a else a)
  | S754_infinity _ | S754_nan => None
  end.

(** Decimal rendering of an integer, as [str(n)] and an f-string do. *)
Definition str_of_int (z : Z) : string := NilZero.string_of_int (Z.to_int z).

(** ** Calendar fields of a timestamp *)

Definition ns_per_day : Z := 86400 * 1000000000.

(** Year and month of the proleptic Gregorian day [z] days after
    1970-01-01 (what [.year] and [.month] return). *)
Definition civil_of_days (z : Z) : Z * Z :=
  let z := z + 719468 in
  let era := z / 146097 in
  let doe := z - era * 146097 in
  let yoe := (doe - doe / 1460 + doe / 36524 - doe / 146096) / 365 in
  let doy := doe - (365 * yoe + yoe / 4 - yoe / 100) in
  let mp := (5 * doy + 2) / 153 in
  let m := if mp <? 10 then mp + 3 else mp - 9 in
  let y := yoe + era * 400 in
  (if m <=? 2 then y + 1 else y, m).

Definition ts_year (d : Timestamp) : Z := fst (civil_of_days (ts_value d / ns_per_day)).
Definition ts_month (d : Timestamp) : Z := snd (civil_of_days (ts_value d / ns_per_day)).

(** The day of the month of that day (what [.day] returns). The script
    does not read it; it serves to name a date in full. *)
Definition day_of_month (z : Z) : Z :=
  let z := z + 719468 in
  let era := z / 146097 in
  let doe := z - era * 146097 in
  let yoe := (doe - doe / 1460 + doe / 36524 - doe / 146096) / 365 in
  let doy := doe - (365 * yoe + yoe / 4 - yoe / 100) in
  let mp := (5 * doy + 2) / 153 in
  doy - (153 * mp + 2) / 5 + 1.

Definition ts_day (d : Timestamp) : Z := day_of_month (ts_value d / ns_per_day).

(** [strftime('%B')] in the C locale. *)
Definition month_names : list string :=
  ["January"; "February"; "March"; "April"; "May"; "June"; "July";
   "August"; "September"; "October"; "November"; "December"]%string.

Definition ts_month_name (d : Timestamp) : string :=
  nth (Z.to_nat (ts_month d - 1)) month_names ""%string.

(** The range of an int64 of nanoseconds, the least int64 being
    reserved for [NaT]. A pandas that keeps timedeltas and timestamps in
    nanoseconds (pandas up to 2.x does) holds these values and no
    others; the script does not say which pandas it runs with. *)
Definition ns_max : Z := 2 ^ 63 - 1.
Definition in_ns_range (n : Z) : bool := (- ns_max <=? n) && (n <=? ns_max).

(** [pd.Timestamp('1899-12-30')]: 25569 days before 1970-01-01. *)
Definition excel_epoch : Timestamp := mkTimestamp (-25569 * ns_per_day).

(** The largest integer not above a float. *)
Definition floor_of_float (f : float) : option Z :=
  match Prim2SF f with
  | S754_zero _ => Some 0
  | S754_finite s m e => Some (Z.shiftl (if s then Z.neg m else Z.pos m) e)
  | S754_infinity _ | S754_nan => None
  end.

(** ** The Python runtime *)

(** The parts of the Python runtime and of pandas that the script calls
    on strings and fractional numbers, and whose text-level rules are not
    spelled out here. [None] is a raised exception. *)
Class PyRuntime := {
  (** [float(s)] for a string. *)
  float_of_str : string -> option float;
  (** [int(s)] for a string. *)
  int_of_str : string -> option Z;
  (** [str(x)] for a float and for a timestamp. *)
  str_of_float : float -> string;
  str_of_ts : Timestamp -> string;
  (** [pd.to_datetime(s)] for a string; [None] also when the result is
      [NaT]. *)
  to_datetime : string -> option Timestamp;
  (** [pd.Timedelta(days=x)] for a float [x], in nanoseconds. *)
  timedelta_of_float_days : float -> option Z;
  (** Whether [pd.Timedelta] can hold that many nanoseconds, and whether
      the sum of a timestamp and of that many nanoseconds can be held;
      the operation raises when it cannot. *)
  timedelta_fits : Z -> bool;
  timestamp_fits : Timestamp -> Z -> bool
}.

Section Pipeline.
Context {rt : PyRuntime}.

(** [float(v)]. A timestamp has no [__float__], and [float(None)] is a
    [TypeError]. *)
Definition py_float (v : value) : option float :=
  match v with
  | VNone => None
  | VInt z => float_of_int z
  | VFloat f => Some f
  | VStr s => float_of_str s
  | VDate _ => None
  end.

(** [int(v)]. *)
Definition py_int (v : value) : option Z :=
  match v with
  | VNone => None
  | VInt z => Some z
  | VFloat f => int_of_float f
  | VStr s => int_of_str s
  | VDate _ => None
  end.

(** [str(v)]; a missing cell of a frame prints as [nan]. *)
Definition py_str (v : value) : string :=
  match v with
  | VNone => "nan"%string
  | VInt z => str_of_int z
  | VFloat f => str_of_float f
  | VStr s => s
  | VDate d => str_of_ts d
  end.

(** [value == '']. *)
Definition eq_empty_str (v : value) : bool :=
  match v with
  | VStr s => if decide (s = ""%string) then true else false
  | _ => false
  end.

(** [value == 0]: an integer or a float compares by number (both signed
    zeros are equal to 0), anything else is unequal. *)
Definition eq_zero (v : value) : bool :=
  match v with
  | VInt z => z =? 0
  | VFloat f => (f =? 0)%float
  | _ => false
  end.

(** [clean_numeric]. *)
Definition clean_numeric (v : value) : value :=
  if isna v || eq_empty_str v || eq_zero v then VNone
  else match py_float v with
       | Some f => VFloat f
       | None => VNone
       end.

(** [pd.Timedelta(days=n)] for an integer [n], in nanoseconds. *)
Definition timedelta_of_int_days (n : Z) : option Z :=
  let td := n * ns_per_day in
  if timedelta_fits td then Some td else None.

(** [ts + td] for a timedelta of [td] nanoseconds. *)
Definition ts_add (d : Timestamp) (td : Z) : option Timestamp :=
  if timestamp_fits d td then Some (mkTimestamp (ts_value d + td)) else None.

(** [parse_excel_date]. The body after the [isna] test sits in a
    [try] whose handler returns [None]. *)
Definition parse_excel_date (v : value) : value :=
  if isna v then VNone
  else
    let attempt : option Timestamp :=
      match v with
      | VDate d => Some d
      | VInt n => td ← timedelta_of_int_days n; ts_add excel_epoch td
      | VFloat x => td ← timedelta_of_float_days x; ts_add excel_epoch td
      | VStr s => to_datetime s
      | VNone => None
      end in
    match attempt with
    | Some d => VDate d
    | None => VNone
    end.

(** [extract_time_components]: year, quarter, month, month name, and
    four [None] for a missing date. It is applied to what
    [parse_excel_date] returned, a datetime or the missing value. *)
Definition extract_time_components (date : value) : value * value * value * value :=
  match date with
  | VDate d =>
      (VInt (ts_year d), VInt ((ts_month d - 1) / 3 + 1), VInt (ts_month d),
       VStr (ts_month_name d))
  | _ => (VNone, VNone, VNone, VNone)
  end.

(** ** Rows of the frame *)

(** One row of the sheet. Every cell may be missing or malformed. The
    sheet has a [CertificateID] or a [Certificate] column (or both);
    [None] says that the column itself is not there, which is what
    ['CertificateID' in row] tests. *)
Record RawFilm := {
  FilmID : value;
  Title : value;
  ReleaseDate : value;
  BudgetDollars : value;
  BoxOfficeDollars : value;
  RunTimeMinutes : value;
  OscarNominations : value;
  OscarWins : value;
  DirectorID : value;
  StudioID : value;
  GenreID : value;
  CountryID : value;
  LanguageID : value;
  CertificateID : option value;
  Certificate : option value;
  Review : value
}.

(** A row of [df_clean]: the copied source row and the added columns. *)
Record CleanFilm := {
  raw : RawFilm;
  ReleaseDate_Parsed : value;
  BudgetDollars_Clean : value;
  BoxOfficeDollars_Clean : value;
  ProfitDollars : value;
  ROI : value;
  Year : value;
  Quarter : value;
  Month : value;
  MonthName : value
}.

(** ** transform_data *)

(** A cell of a float64 column: the missing cell is stored as NaN. The
    two cleaned columns hold only what [clean_numeric] returned. *)
Definition as_float64 (v : value) : float :=
  match v with
  | VFloat f => f
  | _ => nan
  end.

(** Element-wise [a - b] and [a / b] of two float64 columns. *)
Definition col_sub (a b : value) : value := VFloat (as_float64 a - as_float64 b).
Definition col_div (a b : value) : value := VFloat (as_float64 a / as_float64 b).

(** Element-wise [a > 0]. *)
Definition col_gt0 (a : value) : bool := (0 <? as_float64 a)%float.

(** Element-wise [np.where(cond, x, None)]. *)
Definition np_where (cond : bool) (x : value) : value := if cond then x else VNone.

(** What [transform_data] computes for one row; the function works
    column by column, and no column looks at another row. *)
Definition transform_row (r : RawFilm) : CleanFilm :=
  let parsed := parse_excel_date (ReleaseDate r) in
  let budget := clean_numeric (BudgetDollars r) in
  let box := clean_numeric (BoxOfficeDollars r) in
  let '(y, q, m, mn) := extract_time_components parsed in
  {| raw := r;
     ReleaseDate_Parsed := parsed;
     BudgetDollars_Clean := budget;
     BoxOfficeDollars_Clean := box;
     ProfitDollars := col_sub box budget;
     ROI := np_where (col_gt0 budget) (col_div (col_sub box budget) budget);
     Year := y; Quarter := q; Month := m; MonthName := mn |}.

Definition transform_data (df : list RawFilm) : list CleanFilm := map transform_row df.

(** ** The warehouse *)

(** The tables of the star schema, each keyed by its integer primary
    key; a row holds the columns other than the key. *)
Record TimeRow := {
  tr_FullDate : value;
  tr_Year : option Z;
  tr_Quarter : option Z;
  tr_Month : option Z;
  tr_MonthName : value
}.

Record FilmRow := {
  fl_Title : string;
  fl_Certificate : option string;
  fl_Review : option string
}.

Record FactRow := {
  fr_DirectorID : option Z;
  fr_StudioID : option Z;
  fr_GenreID : option Z;
  fr_CountryID : option Z;
  fr_LanguageID : option Z;
  fr_TimeID : option Z;
  fr_BudgetDollars : value;
  fr_BoxOfficeDollars : value;
  fr_OscarNominations : Z;
  fr_OscarWins : Z;
  fr_RunTimeMinutes : option Z;
  fr_ProfitDollars : value;
  fr_ROI : option float
}.

Record Store := {
  DimTime : gmap Z TimeRow;
  DimFilm : gmap Z FilmRow;
  DimDirector : gmap Z string;
  DimStudio : gmap Z string;
  DimGenre : gmap Z string;
  DimCountry : gmap Z string;
  DimLanguage : gmap Z string;
  FactFilmPerformance : gmap Z FactRow
}.

(** What the database server decides. The schema of the warehouse
    (column types and ranges, [NOT NULL], [CHECK] and [FOREIGN KEY]
    constraints) is not part of the script: whether the server accepts a
    row for a table, given what the open transaction holds by then, is a
    parameter. A row that is not accepted makes [cursor.execute] raise. *)
Class Schema := {
  time_ok : Z -> TimeRow -> Store -> bool;
  film_ok : Z -> FilmRow -> Store -> bool;
  director_ok : Z -> string -> Store -> bool;
  studio_ok : Z -> string -> Store -> bool;
  genre_ok : Z -> string -> Store -> bool;
  country_ok : Z -> string -> Store -> bool;
  language_ok : Z -> string -> Store -> bool;
  fact_ok : Z -> FactRow -> Store -> bool
}.

(** The schema without constraints: every row is accepted. *)
Definition permissive : Schema :=
  {| time_ok := fun _ _ _ => true; film_ok := fun _ _ _ => true;
     director_ok := fun _ _ _ => true; studio_ok := fun _ _ _ => true;
     genre_ok := fun _ _ _ => true; country_ok := fun _ _ _ => true;
     language_ok := fun _ _ _ => true; fact_ok := fun _ _ _ => true |}.

Context {db : Schema}.

(** A table name of an SQL statement: how to read the table off a store,
    how to put a new content in its place, and which rows the server
    accepts for it. *)
Record Table (A : Type) := {
  rows_of : Store -> gmap Z A;
  with_rows : gmap Z A -> Store -> Store;
  admits : Z -> A -> Store -> bool
}.
#[global] Arguments rows_of {A}.
#[global] Arguments with_rows {A}.
#[global] Arguments admits {A}.

Definition DimTime_t : Table TimeRow :=
  {| rows_of := DimTime;
     with_rows t s :=
       {| DimTime := t; DimFilm := DimFilm s; DimDirector := DimDirector s;
          DimStudio := DimStudio s; DimGenre := DimGenre s; DimCountry := DimCountry s;
          DimLanguage := DimLanguage s; FactFilmPerformance := FactFilmPerformance s |};
     admits := time_ok |}.

Definition DimFilm_t : Table FilmRow :=
  {| rows_of := DimFilm;
     with_rows t s :=
       {| DimTime := DimTime s; DimFilm := t; DimDirector := DimDirector s;
          DimStudio := DimStudio s; DimGenre := DimGenre s; DimCountry := DimCountry s;
          DimLanguage := DimLanguage s; FactFilmPerformance := FactFilmPerformance s |};
     admits := film_ok |}.

Definition DimDirector_t : Table string :=
  {| rows_of := DimDirector;
     with_rows t s :=
       {| DimTime := DimTime s; DimFilm := DimFilm s; DimDirector := t;
          DimStudio := DimStudio s; DimGenre := DimGenre s; DimCountry := DimCountry s;
          DimLanguage := DimLanguage s; FactFilmPerformance := FactFilmPerformance s |};
     admits := director_ok |}.

Definition DimStudio_t : Table string :=
  {| rows_of := DimStudio;
     with_rows t s :=
       {| DimTime := DimTime s; DimFilm := DimFilm s; DimDirector := DimDirector s;
          DimStudio := t; DimGenre := DimGenre s; DimCountry := DimCountry s;
          DimLanguage := DimLanguage s; FactFilmPerformance := FactFilmPerformance s |};
     admits := studio_ok |}.

Definition DimGenre_t : Table string :=
  {| rows_of := DimGenre;
     with_rows t s :=
       {| DimTime := DimTime s; DimFilm := DimFilm s; DimDirector := DimDirector s;
          DimStudio := DimStudio s; DimGenre := t; DimCountry := DimCountry s;
          DimLanguage := DimLanguage s; FactFilmPerformance := FactFilmPerformance s |};
     admits := genre_ok |}.

Definition DimCountry_t : Table string :=
  {| rows_of := DimCountry;
     with_rows t s :=
       {| DimTime := DimTime s; DimFilm := DimFilm s; DimDirector := DimDirector s;
          DimStudio := DimStudio s; DimGenre := DimGenre s; DimCountry := t;
          DimLanguage := DimLanguage s; FactFilmPerformance := FactFilmPerformance s |};
     admits := country_ok |}.

Definition DimLanguage_t : Table string :=
  {| rows_of := DimLanguage;
     with_rows t s :=
       {| DimTime := DimTime s; DimFilm := DimFilm s; DimDirector := DimDirector s;
          DimStudio := DimStudio s; DimGenre := DimGenre s; DimCountry := DimCountry s;
          DimLanguage := t; FactFilmPerformance := FactFilmPerformance s |};
     admits := language_ok |}.

Definition FactFilmPerformance_t : Table FactRow :=
  {| rows_of := FactFilmPerformance;
     with_rows t s :=
       {| DimTime := DimTime s; DimFilm := DimFilm s; DimDirector := DimDirector s;
          DimStudio := DimStudio s; DimGenre := DimGenre s; DimCountry := DimCountry s;
          DimLanguage := DimLanguage s; FactFilmPerformance := t |};
     admits := fact_ok |}.

(** A psycopg2 connection with autocommit off: statements act on the
    open transaction ([pending]); [commit] makes it the stored state,
    [rollback] throws the whole open transaction away; [close] drops
    what is pending, so [committed] is what the warehouse holds. A
    statement that the server rejects leaves the transaction [failed]:
    it has changed nothing, and the server refuses every further
    statement until the transaction is rolled back; a [commit] of a
    failed transaction is answered with a rollback. *)
Record Connection := {
  committed : Store;
  pending : Store;
  failed : bool
}.

Definition rollback (c : Connection) : Connection :=
  {| committed := committed c; pending := committed c; failed := false |}.

Definition commit (c : Connection) : Connection :=
  if failed c then rollback c
  else {| committed := pending c; pending := pending c; failed := false |}.

(** A freshly opened connection on a warehouse. *)
Definition connect (s : Store) : Connection :=
  {| committed := s; pending := s; failed := false |}.

(** [INSERT INTO t (key, ...) VALUES (k, x) ON CONFLICT (key) DO NOTHING]
    on a table content, with the statement's row count. *)
Definition insert_or_skip {A} (k : Z) (x : A) (t : gmap Z A) : gmap Z A * nat :=
  match t !! k with
  | Some _ => (t, 0%nat)
  | None => (<[k := x]> t, 1%nat)
  end.

(** [cursor.execute] of that statement: the connection it leaves, and
    [cursor.rowcount], or [None] when it raises. It raises in a failed
    transaction, and when the server does not accept the row, which
    fails the transaction. *)
Definition execute_insert {A} (T : Table A) (k : Z) (x : A) (c : Connection)
  : Connection * option nat :=
  if failed c then (c, None)
  else if admits T k x (pending c) then
    let '(t, n) := insert_or_skip k x (rows_of T (pending c)) in
    ({| committed := committed c; pending := with_rows T t (pending c);
        failed := false |}, Some n)
  else ({| committed := committed c; pending := pending c; failed := true |}, None).

(** The connection and the two counters a loader carries through its
    loop. *)
Record Loader := {
  conn : Connection;
  inserted : nat;
  errors : nat
}.

Definition start (c : Connection) : Loader :=
  {| conn := c; inserted := 0; errors := 0 |}.

(** How the statements of a [try] block end: they run through, or one of
    them raises and control passes to the [except] branch. *)
Inductive attempt :=
| Done (st : Loader)
| Raised (st : Loader).

(** [cursor.execute(...)] and [inserted += cursor.rowcount]. *)
Definition try_insert {A} (T : Table A) (k : Z) (x : A) (st : Loader) : attempt :=
  match execute_insert T k x (conn st) with
  | (c, Some n) => Done {| conn := c; inserted := (inserted st + n)%nat; errors := errors st |}
  | (c, None) => Raised {| conn := c; inserted := inserted st; errors := errors st |}
  end.

(** [conn.commit()] as the last statement of a [try] branch. *)
Definition then_commit (st : Loader) : Loader :=
  {| conn := commit (conn st); inserted := inserted st; errors := errors st |}.

(** The [except] branch: [conn.rollback()] and [errors += 1]. *)
Definition on_error (st : Loader) : Loader :=
  {| conn := rollback (conn st); inserted := inserted st; errors := (errors st + 1)%nat |}.

(** A [try] block that ends in [conn.commit()], with its [except]
    branch. *)
Definition commit_or_rollback (a : attempt) : Loader :=
  match a with
  | Done st => then_commit st
  | Raised st => on_error st
  end.

(** A [try] block without a commit, with its [except] branch. *)
Definition keep_or_rollback (a : attempt) : Loader :=
  match a with
  | Done st => st
  | Raised st => on_error st
  end.

(** ** Duplicates *)

(** The integer a float is equal to, when it is equal to one. *)
Definition integral (f : float) : option Z :=
  match Prim2SF f with
  | S754_zero _ => Some 0
  | S754_finite s m e =>
      if (0 <=? e) || (Z.pos m mod 2 ^ (- e) =? 0)
      then Some (if s then - Z.shiftl (Z.pos m) e else Z.shiftl (Z.pos m) e)
      else None
  | S754_infinity _ | S754_nan => None
  end.

(** Whether two cells are the same key for [drop_duplicates]: missing
    cells are all alike, numbers compare by value, text by its
    characters. *)
Definition same_cell (a b : value) : bool :=
  if isna a then isna b
  else match a, b with
       | VInt x, VInt y => x =? y
       | VFloat x, VFloat y => (x =? y)%float
       | VInt x, VFloat y => bool_decide (integral y = Some x)
       | VFloat x, VInt y => bool_decide (integral x = Some y)
       | VStr x, VStr y => bool_decide (x = y)
       | VDate x, VDate y => ts_value x =? ts_value y
       | _, _ => false
       end.

(** [drop_duplicates(subset=[key])], keeping the first row of every
    key: a row goes when an earlier row carries the same key. *)
Fixpoint drop_duplicates_from {A} (key : A -> value) (seen : list value) (df : list A)
  : list A :=
  match df with
  | [] => []
  | row :: rest =>
      if existsb (same_cell (key row)) seen
      then drop_duplicates_from key (key row :: seen) rest
      else row :: drop_duplicates_from key (key row :: seen) rest
  end.

Definition drop_duplicates {A} (key : A -> value) (df : list A) : list A :=
  drop_duplicates_from key [] df.

(** [int(v) if pd.notna(v) else None]. *)
Definition int_if_notna (v : value) : option (option Z) :=
  if notna v then Some <$> py_int v else Some None.

(** ** load_dimension_time *)

(** The parameter tuple of the [INSERT], as key and row; [None] when
    building it raises. *)
Definition time_params (row : CleanFilm) : option (Z * TimeRow) :=
  k ← py_int (RunTimeMinutes (raw row));
  y ← int_if_notna (Year row);
  q ← int_if_notna (Quarter row);
  m ← int_if_notna (Month row);
  Some (k, {| tr_FullDate := ReleaseDate_Parsed row; tr_Year := y; tr_Quarter := q;
              tr_Month := m; tr_MonthName := MonthName row |}).

Definition load_time_row (st : Loader) (row : CleanFilm) : Loader :=
  match time_params row with
  | Some (k, x) => commit_or_rollback (try_insert DimTime_t k x st)
  | None => on_error st
  end.

Definition time_data (df : list CleanFilm) : list CleanFilm :=
  drop_duplicates (fun r => RunTimeMinutes (raw r))
    (List.filter (fun r => notna (ReleaseDate_Parsed r)) df).

Definition load_dimension_time (df : list CleanFilm) (c : Connection) : Loader :=
  fold_left load_time_row (time_data df) (start c).

(** ** load_dimension_film *)

(** [s[:n]]. *)
Definition prefix (n : nat) (s : string) : string := String.substring 0 n s.

Definition cert_value (row : CleanFilm) : option (option string) :=
  match CertificateID (raw row), Certificate (raw row) with
  | Some v, _ =>
      if notna v then (fun n => Some (str_of_int n)) <$> py_int v
      else match Certificate (raw row) with
           | Some w => if notna w then (fun n => Some (str_of_int n)) <$> py_int w
                       else Some None
           | None => Some None
           end
  | None, Some w =>
      if notna w then (fun n => Some (str_of_int n)) <$> py_int w else Some None
  | None, None => Some None
  end.

Definition review_value (row : CleanFilm) : option string :=
  if notna (Review (raw row)) then Some (prefix 500 (py_str (Review (raw row))))
  else None.

Definition film_params (row : CleanFilm) : option (Z * FilmRow) :=
  c ← cert_value row;
  k ← py_int (FilmID (raw row));
  Some (k, {| fl_Title := prefix 200 (py_str (Title (raw row)));
              fl_Certificate := c; fl_Review := review_value row |}).

Definition load_film_row (st : Loader) (row : CleanFilm) : Loader :=
  match film_params row with
  | Some (k, x) => commit_or_rollback (try_insert DimFilm_t k x st)
  | None => on_error st
  end.

Definition load_dimension_film (df : list CleanFilm) (c : Connection) : Loader :=
  fold_left load_film_row df (start c).

(** ** load_dimension_generic *)

(** [f"{display_name}_{id_value}"]. *)
Definition name_value (display_name : string) (id_value : Z) : string :=
  (display_name ++ "_" ++ str_of_int id_value)%string.

Definition generic_params (display_name : string) (v : value) : option (Z * string) :=
  id_value ← py_int v;
  Some (id_value, name_value display_name id_value).

Definition load_generic_row (dim_table : Table string) (display_name : string)
    (st : Loader) (v : value) : Loader :=
  match generic_params display_name v with
  | Some (k, x) => commit_or_rollback (try_insert dim_table k x st)
  | None => on_error st
  end.

(** [df[[id_col]].dropna().drop_duplicates()]. *)
Definition unique_values (id_col : CleanFilm -> value) (df : list CleanFilm) : list value :=
  drop_duplicates (fun v => v) (List.filter notna (map id_col df)).

(** The loader is given the table and its ID column by name; here the
    table is a [Table] and the column the function that reads it off a
    row. [name_col] only names the second column of the statement. *)
Definition load_dimension_generic (df : list CleanFilm) (c : Connection)
    (dim_table : Table string) (id_col : CleanFilm -> value) (display_name : string)
  : Loader :=
  fold_left (load_generic_row dim_table display_name) (unique_values id_col df) (start c).

(** ** load_fact_table *)

Definition fact_params (row : CleanFilm) : option (Z * FactRow) :=
  k ← py_int (FilmID (raw row));
  director ← int_if_notna (DirectorID (raw row));
  studio ← int_if_notna (StudioID (raw row));
  genre ← int_if_notna (GenreID (raw row));
  country ← int_if_notna (CountryID (raw row));
  language ← int_if_notna (LanguageID (raw row));
  time ← int_if_notna (RunTimeMinutes (raw row));
  nominations ← (if notna (OscarNominations (raw row))
                 then py_int (OscarNominations (raw row)) else Some 0);
  wins ← (if notna (OscarWins (raw row)) then py_int (OscarWins (raw row)) else Some 0);
  runtime ← int_if_notna (RunTimeMinutes (raw row));
  roi ← (if notna (ROI row) then Some <$> py_float (ROI row) else Some None);
  Some (k, {| fr_DirectorID := director; fr_StudioID := studio; fr_GenreID := genre;
              fr_CountryID := country; fr_LanguageID := language; fr_TimeID := time;
              fr_BudgetDollars := BudgetDollars_Clean row;
              fr_BoxOfficeDollars := BoxOfficeDollars_Clean row;
              fr_OscarNominations := nominations; fr_OscarWins := wins;
              fr_RunTimeMinutes := runtime;
              fr_ProfitDollars := ProfitDollars row; fr_ROI := roi |}).

(** The loop body: no commit in the [try] branch. *)
Definition load_fact_row (st : Loader) (row : CleanFilm) : Loader :=
  match fact_params row with
  | Some (k, x) => keep_or_rollback (try_insert FactFilmPerformance_t k x st)
  | None => on_error st
  end.

(** The loop, then the one [conn.commit()]. *)
Definition load_fact_table (df : list CleanFilm) (c : Connection) : Loader :=
  then_commit (fold_left load_fact_row df (start c)).

(** ** The load stage of run_etl *)

(** Step 3 of [run_etl]: the dimensions in their fixed order, then the
    facts, all on the one connection. *)
Definition load_stage (df : list CleanFilm) (c : Connection) : Connection :=
  let c := conn (load_dimension_time df c) in
  let c := conn (load_dimension_film df c) in
  let c := conn (load_dimension_generic df c DimDirector_t
                   (fun r => DirectorID (raw r)) "Director") in
  let c := conn (load_dimension_generic df c DimStudio_t
                   (fun r => StudioID (raw r)) "Studio") in
  let c := conn (load_dimension_generic df c DimGenre_t
                   (fun r => GenreID (raw r)) "Genre") in
  let c := conn (load_dimension_generic df c DimCountry_t
                   (fun r => CountryID (raw r)) "Country") in
  let c := conn (load_dimension_generic df c DimLanguage_t
                   (fun r => LanguageID (raw r)) "Language") in
  conn (load_fact_table df c).

(** The warehouse after a run that found it in state [s]: the
    connection is opened, the load stage runs, the connection is
    closed. *)
Definition run_load (df : list CleanFilm) (s : Store) : Store :=
  committed (load_stage df (connect s)).

(** ** Notions used in the statements *)

(** What C2 asks of one cleaned row. *)
Definition derived_measures_ok (c : CleanFilm) : Prop :=
  let box := BoxOfficeDollars_Clean c in
  let budget := BudgetDollars_Clean c in
  (forall x y, box = VFloat x -> budget = VFloat y ->
     ProfitDollars c = VFloat (x - y)) /\
  (isna box = true \/ isna budget = true -> isna (ProfitDollars c) = true) /\
  (forall x y, box = VFloat x -> budget = VFloat y -> (0 <? y)%float = true ->
     ROI c = VFloat ((x - y) / y)) /\
  (forall y, isna box = true -> budget = VFloat y -> (0 <? y)%float = true ->
     isna (ROI c) = true) /\
  ((forall y, budget = VFloat y -> (0 <? y)%float = false) -> ROI c = VNone) /\
  (isna budget = true -> ROI c = VNone) /\
  (forall y, budget = VFloat y -> (y <=? 0)%float = true -> ROI c = VNone).

(** The same row with another parsed date. *)
Definition with_parsed_date (d : value) (row : CleanFilm) : CleanFilm :=
  {| raw := raw row; ReleaseDate_Parsed := d;
     BudgetDollars_Clean := BudgetDollars_Clean row;
     BoxOfficeDollars_Clean := BoxOfficeDollars_Clean row;
     ProfitDollars := ProfitDollars row; ROI := ROI row;
     Year := Year row; Quarter := Quarter row; Month := Month row;
     MonthName := MonthName row |}.

(** The five name-only dimensions and their tables. *)
Inductive dimension := Director | Studio | Genre | Country | Language.

Definition dim_table (d : dimension) : Table string :=
  match d with
  | Director => DimDirector_t
  | Studio => DimStudio_t
  | Genre => DimGenre_t
  | Country => DimCountry_t
  | Language => DimLanguage_t
  end.

(** Whether an attempt raised. *)
Definition raises {A} (o : option A) : bool :=
  match o with Some _ => false | None => true end.

(** The table after one insert-or-skip, and after a run of them. *)
Definition upsert {A} (t : gmap Z A) (p : Z * A) : gmap Z A :=
  fst (insert_or_skip p.1 p.2 t).

Definition upsert_all {A} (l : list (Z * A)) (t : gmap Z A) : gmap Z A :=
  fold_left upsert l t.

(** Writing a table and reading it back. *)
Class TableLaws {A} (T : Table A) : Prop := {
  rows_of_with_rows : forall t s, rows_of T (with_rows T t s) = t;
  with_rows_with_rows : forall t t' s, with_rows T t (with_rows T t' s) = with_rows T t s;
  with_rows_rows_of : forall s, with_rows T (rows_of T s) s = s
}.

(** What is asked of [pd.Timedelta(days=x)] for a float [x]: a whole
    number of days gives the timedelta of that integer, and any [x] a
    timedelta between the whole days around it. *)
Class DaysAsTimedelta : Prop := {
  whole_days_as_int : forall x n,
    integral x = Some n -> timedelta_of_float_days x = timedelta_of_int_days n;
  days_within_day : forall x lo td,
    floor_of_float x = Some lo -> timedelta_of_float_days x = Some td ->
    lo * ns_per_day <= td <= (lo + 1) * ns_per_day
}.

(** Whether the [try] block of a loop body raises on a row, the open
    transaction holding [s]: the parameters cannot be built, or the
    server does not accept them. *)
Definition row_raises {A B} (T : Table A) (params : B -> option (Z * A)) (s : Store)
    (row : B) : bool :=
  match params row with
  | Some (k, x) => negb (admits T k x s)
  | None => true
  end.

(** A connection with no failed transaction and nothing pending. *)
Definition settled (c : Connection) : Prop :=
  failed c = false /\ pending c = committed c.

(** A table for which the server accepts every row. *)
Class Accepting {A} (T : Table A) : Prop :=
  accepting : forall k x s, admits T k x s = true.

(** The body of a dimension loop: the insert is committed in the [try]
    branch. The three dimension loaders have this body. *)
Definition commit_each {A B} (T : Table A) (params : B -> option (Z * A))
    (st : Loader) (row : B) : Loader :=
  match params row with
  | Some (k, x) => commit_or_rollback (try_insert T k x st)
  | None => on_error st
  end.

(** The body of the fact loop: nothing is committed inside the loop. *)
Definition commit_last {A B} (T : Table A) (params : B -> option (Z * A))
    (st : Loader) (row : B) : Loader :=
  match params row with
  | Some (k, x) => keep_or_rollback (try_insert T k x st)
  | None => on_error st
  end.

(** The rows after the last row that raised. *)
Definition after_last_failure {B C} (params : B -> option C) (l : list B) : list B :=
  fold_left (fun acc r => if raises (params r) then [] else acc ++ [r]) l [].

Definition failures {B C} (params : B -> option C) (l : list B) : nat :=
  List.length (List.filter (fun r => raises (params r)) l).

End Pipeline.

(** ** Data for the worked examples *)

(** A runtime for the examples: a text is read as a decimal integer
    literal or not at all, a float day count is taken when it is a whole
    number of days, floats and timestamps print as the empty text, and
    timedeltas and timestamps are int64 nanoseconds. *)
Definition int_literal (s : string) : option Z := Z.of_int <$> NilZero.int_of_string s.

Definition float_literal (s : string) : option float :=
  n ← int_literal s; float_of_int n.

Definition whole_days (x : float) : option Z :=
  n ← integral x;
  if in_ns_range (n * ns_per_day) then Some (n * ns_per_day) else None.

Definition literal_runtime : PyRuntime :=
  {| float_of_str := float_literal;
     int_of_str := int_literal;
     str_of_float := fun _ => ""%string;
     str_of_ts := fun _ => ""%string;
     to_datetime := fun _ => None;
     timedelta_of_float_days := whole_days;
     timedelta_fits := in_ns_range;
     timestamp_fits := fun d td => in_ns_range (ts_value d + td) |}.

Definition empty_store : Store :=
  {| DimTime := ∅; DimFilm := ∅; DimDirector := ∅; DimStudio := ∅; DimGenre := ∅;
     DimCountry := ∅; DimLanguage := ∅; FactFilmPerformance := ∅ |}.

(** A sheet row with the cells the examples vary. *)
Definition film (id : value) (title : string) (date budget box runtime director : value)
  : RawFilm :=
  {| FilmID := id; Title := VStr title; ReleaseDate := date;
     BudgetDollars := budget; BoxOfficeDollars := box; RunTimeMinutes := runtime;
     OscarNominations := VNone; OscarWins := VInt 2;
     DirectorID := director; StudioID := VInt 3; GenreID := VNone;
     CountryID := VInt 44; LanguageID := VInt 1;
     CertificateID := Some (VInt 12); Certificate := None; Review := VStr "fine" |}.

Definition clean (df : list RawFilm) : list CleanFilm :=
  @transform_data literal_runtime df.

(** The two worked rows of the specification; both films run 120
    minutes and were released on consecutive days. *)
Definition film_zero_budget : RawFilm :=
  film (VInt 1) "A" (VInt 45000) (VInt 0) (VInt 5000000) (VInt 120) (VInt 7).

Definition film_profitable : RawFilm :=
  film (VInt 2) "B" (VInt 45001) (VInt 1000000) (VInt 3000000) (VInt 120) (VInt 7).

Definition two_dated_films : list CleanFilm := clean [film_zero_budget; film_profitable].

(** A sheet of two films, the second without a [FilmID]. With a missing
    cell in it the [FilmID] column is a float column, so film 1 carries
    1.0. *)
Definition film_one : RawFilm :=
  film (VFloat 1) "A" (VInt 45000) (VInt 1000000) (VInt 3000000) (VInt 120) (VInt 7).

Definition film_without_id : RawFilm :=
  film VNone "B" (VInt 45001) (VInt 0) (VInt 5000000) (VInt 95) (VInt 8).

Definition good_then_bad : list CleanFilm := clean [film_one; film_without_id].

(** A sheet of two films of 120 minutes, the first without a release
    date; the date column is a float column for the same reason. *)
Definition film_undated : RawFilm :=
  film (VInt 1) "A" VNone (VInt 1000000) (VInt 3000000) (VInt 120) (VInt 7).

Definition film_dated : RawFilm :=
  film (VInt 2) "B" (VFloat 45000) (VInt 1000000) (VInt 3000000) (VInt 120) (VInt 7).

Definition undated_then_dated : list CleanFilm := clean [film_undated; film_dated].

(** 2023-03-15, the day of serial number 45000. *)
Definition day_45000 : Timestamp := mkTimestamp 1678838400000000000.

(** What the time loader stores under key 120 for these sheets. *)
Definition stored_120 : TimeRow :=
  {| tr_FullDate := VDate day_45000;
     tr_Year := Some 2023; tr_Quarter := Some 1; tr_Month := Some 3;
     tr_MonthName := VStr "March" |}.

(** The fact row of [film_one]. *)
Definition fact_of_film_one : FactRow :=
  {| fr_DirectorID := Some 7; fr_StudioID := Some 3; fr_GenreID := None;
     fr_CountryID := Some 44; fr_LanguageID := Some 1; fr_TimeID := Some 120;
     fr_BudgetDollars := VFloat 1000000; fr_BoxOfficeDollars := VFloat 3000000;
     fr_OscarNominations := 0; fr_OscarWins := 2; fr_RunTimeMinutes := Some 120;
     fr_ProfitDollars := VFloat 2000000; fr_ROI := Some 2%float |}.

(** The film row of [film_one]. *)
Definition film_row_one : FilmRow :=
  {| fl_Title := "A"; fl_Certificate := Some "12"%string; fl_Review := Some "fine"%string |}.


(** A schema whose film keys are 32-bit integers: the server rejects a
    film row with a [FilmID] outside that range and accepts every other
    row. *)
Definition int4_film_keys : Schema :=
  {| time_ok := fun _ _ _ => true;
     film_ok := fun k _ _ => (-2147483648 <=? k) && (k <=? 2147483647);
     director_ok := fun _ _ _ => true; studio_ok := fun _ _ _ => true;
     genre_ok := fun _ _ _ => true; country_ok := fun _ _ _ => true;
     language_ok := fun _ _ _ => true; fact_ok := fun _ _ _ => true |}.

(** A film whose [FilmID] is 2^40. *)
Definition film_out_of_range : RawFilm :=
  film (VInt 1099511627776) "C" (VInt 45002) (VInt 1000000) (VInt 3000000) (VInt 100)
    (VInt 9).

(** ** Notions used in the further properties *)

(** A cell that is there and that [int] rejects. *)
Definition malformed {rt : PyRuntime} (v : value) : bool := notna v && raises (py_int v).

(** A row whose parameter tuple has [int] of the key cell as its key and
    can be built whenever that conversion succeeds. *)
Definition keyed {rt : PyRuntime} {A B} (key : A -> value) (params : A -> option (Z * B))
    (a : A) : Prop :=
  (forall k x, params a = Some (k, x) -> py_int (key a) = Some k) /\
  (params a = None -> py_int (key a) = None).

(** * Properties *)

Section Properties.
Context {rt : PyRuntime}.

(** ** Floating-point facts *)

Lemma SFcompare_refl_nan (x : spec_float) :
  SFeqb x x = false -> x = S754_nan.
Proof.
  unfold SFeqb. destruct x as [s|s| |s m e]; simpl; try done.
  - by destruct s.
  - destruct s; rewrite Z.compare_refl, Pos.compare_cont_refl; done.
Qed.

Lemma is_nan_spec (f : float) : is_nan f = true <-> Prim2SF f = S754_nan.
Proof.
  unfold is_nan. rewrite FloatAxioms.eqb_spec. split.
  - intros H. apply SFcompare_refl_nan. by destruct (SFeqb _ _).
  - intros ->. reflexivity.
Qed.

Lemma is_nan_sub (a b : float) :
  is_nan a = true \/ is_nan b = true -> is_nan (a - b) = true.
Proof.
  rewrite !is_nan_spec, sub_spec. unfold SF64sub.
  intros [-> | ->]; [done|]. by destruct (Prim2SF a).
Qed.

Lemma is_nan_div (a b : float) :
  is_nan a = true \/ is_nan b = true -> is_nan (a / b) = true.
Proof.
  rewrite !is_nan_spec, div_spec. unfold SF64div.
  intros [-> | ->]; [done|]. by destruct (Prim2SF a).
Qed.

Lemma ltb_nan_r (a b : float) : is_nan b = true -> (a <? b)%float = false.
Proof.
  rewrite is_nan_spec, ltb_spec. intros ->. unfold SFltb.
  by destruct (Prim2SF a).
Qed.

Lemma isna_as_float64 (v : value) : isna v = true -> is_nan (as_float64 v) = true.
Proof. destruct v; simpl; done. Qed.

(** ** The cleaning helpers *)

(** [clean_numeric] returns [None] or a float, nothing else. *)
Lemma clean_numeric_shape (v : value) :
  clean_numeric v = VNone \/ exists f, clean_numeric v = VFloat f.
Proof.
  unfold clean_numeric. destruct (_ || _); [by left|].
  destruct (py_float v); eauto.
Qed.

(** C3, as amended: [clean_numeric] returns the missing value for a
    missing cell, for the empty string and for a number equal to zero
    (the integer 0 and both float zeros); for a string that [float]
    rejects it returns the missing value too; for every other input it
    returns [float(value)] when that conversion succeeds and the missing
    value when it raises. A present result is the converted input with
    its sign: nothing makes it non-negative. *)
Theorem clean_numeric_cases (v : value) :
  (isna v = true -> clean_numeric v = VNone) /\
  (v = VStr "" -> clean_numeric v = VNone) /\
  (eq_zero v = true -> clean_numeric v = VNone) /\
  clean_numeric (VInt 0) = VNone /\
  (forall f, (f =? 0)%float = true -> clean_numeric (VFloat f) = VNone) /\
  (forall s, v = VStr s -> float_of_str s = None -> clean_numeric v = VNone) /\
  (isna v = false -> v <> VStr "" -> eq_zero v = false ->
   clean_numeric v = match py_float v with Some f => VFloat f | None => VNone end) /\
  (forall f, clean_numeric v = VFloat f -> py_float v = Some f).
Proof.
  unfold clean_numeric. repeat split.
  - by intros ->.
  - by intros ->.
  - intros ->. by rewrite orb_true_r.
  - intros f Hf. simpl. rewrite Hf. by rewrite orb_true_r.
  - intros s -> Hs. simpl. rewrite Hs. by destruct (_ || _).
  - intros Hna Hne H0. rewrite Hna, H0.
    assert (eq_empty_str v = false) as ->; [|done].
    destruct v; simpl; try done. case_decide; congruence.
  - intros f. destruct (_ || _); [done|].
    destruct (py_float v); congruence.
Qed.

(** [parse_excel_date] returns [None] or a datetime, nothing else. *)
Lemma parse_excel_date_shape (v : value) :
  parse_excel_date v = VNone \/ exists d, parse_excel_date v = VDate d.
Proof.
  unfold parse_excel_date. destruct (isna v); [by left|].
  match goal with |- context [match ?a with Some _ => _ | None => _ end] => destruct a end;
    eauto.
Qed.

Lemma integral_not_nan (x : float) (n : Z) : integral x = Some n -> is_nan x = false.
Proof.
  intros H. destruct (is_nan x) eqn:E; [|done].
  apply is_nan_spec in E. unfold integral in H. by rewrite E in H.
Qed.

Lemma parse_excel_date_int (n : Z) :
  parse_excel_date (VInt n)
  = if timedelta_fits (n * ns_per_day) && timestamp_fits excel_epoch (n * ns_per_day)
    then VDate (mkTimestamp ((n - 25569) * ns_per_day)) else VNone.
Proof.
  unfold parse_excel_date, timedelta_of_int_days, ts_add. cbn [isna]. cbv zeta.
  destruct (timedelta_fits (n * ns_per_day)); cbn [mbind option_bind andb]; [|done].
  destruct (timestamp_fits excel_epoch (n * ns_per_day)); [|done].
  do 2 f_equal. unfold excel_epoch. cbn [ts_value]. ring.
Qed.

Lemma parse_excel_date_float (x : float) :
  is_nan x = false ->
  parse_excel_date (VFloat x)
  = match timedelta_of_float_days x with
    | Some td => if timestamp_fits excel_epoch td
                 then VDate (mkTimestamp (td - 25569 * ns_per_day)) else VNone
    | None => VNone
    end.
Proof.
  intros Hx. unfold parse_excel_date, ts_add. cbn [isna]. rewrite Hx.
  destruct (timedelta_of_float_days x) as [td|]; cbn [mbind option_bind]; [|done].
  destruct (timestamp_fits excel_epoch td); [|done].
  do 2 f_equal. unfold excel_epoch. cbn [ts_value]. ring.
Qed.

(** C7: [parse_excel_date] hands back a datetime as it is. The epoch is
    midnight of 1899-12-30, the day 25569 days before 1970-01-01: an
    integer [n] gives midnight of the day [n] days after it; a float
    that is a whole number of days gives what the integer gives, and any
    float a moment of the day that many whole days after the epoch, or
    the midnight that ends it; a string gives what [pd.to_datetime]
    parses. A missing cell, and every input on which pandas raises (the
    timedelta or the sum cannot be held, the text cannot be parsed),
    gives the missing value. The function is total: it returns a date or
    the missing value and raises on nothing. *)
Theorem parse_excel_date_cases {days : DaysAsTimedelta} :
  (forall d, parse_excel_date (VDate d) = VDate d) /\
  (ts_year excel_epoch = 1899 /\ ts_month excel_epoch = 12 /\ ts_day excel_epoch = 30 /\
   ts_value excel_epoch mod ns_per_day = 0 /\
   ts_value excel_epoch / ns_per_day = -25569) /\
  (forall n d, parse_excel_date (VInt n) = VDate d ->
     ts_value d = (n - 25569) * ns_per_day) /\
  (forall n,
     timedelta_fits (n * ns_per_day) = true ->
     timestamp_fits excel_epoch (n * ns_per_day) = true ->
     parse_excel_date (VInt n) = VDate (mkTimestamp ((n - 25569) * ns_per_day))) /\
  (forall n,
     timedelta_fits (n * ns_per_day) && timestamp_fits excel_epoch (n * ns_per_day) = false ->
     parse_excel_date (VInt n) = VNone) /\
  (forall x n, integral x = Some n ->
     parse_excel_date (VFloat x) = parse_excel_date (VInt n)) /\
  (forall x lo d, floor_of_float x = Some lo -> parse_excel_date (VFloat x) = VDate d ->
     (lo - 25569) * ns_per_day <= ts_value d <= (lo + 1 - 25569) * ns_per_day) /\
  (forall x td,
     is_nan x = false -> timedelta_of_float_days x = Some td ->
     timestamp_fits excel_epoch td = true ->
     parse_excel_date (VFloat x) = VDate (mkTimestamp (td - 25569 * ns_per_day))) /\
  (forall x,
     timedelta_of_float_days x = None -> parse_excel_date (VFloat x) = VNone) /\
  (forall x td,
     timedelta_of_float_days x = Some td -> timestamp_fits excel_epoch td = false ->
     parse_excel_date (VFloat x) = VNone) /\
  (forall s d, to_datetime s = Some d -> parse_excel_date (VStr s) = VDate d) /\
  (forall s, to_datetime s = None -> parse_excel_date (VStr s) = VNone) /\
  (forall v, isna v = true -> parse_excel_date v = VNone) /\
  (forall v, parse_excel_date v = VNone \/ exists d, parse_excel_date v = VDate d).
Proof.
  split; [done|]. split; [by vm_compute|]. split_and!.
  - intros n d. rewrite parse_excel_date_int. destruct (_ && _); [|done].
    by intros [= <-].
  - intros n H1 H2. by rewrite parse_excel_date_int, H1, H2.
  - intros n H. by rewrite parse_excel_date_int, H.
  - intros x n Hn. rewrite (parse_excel_date_float x (integral_not_nan x n Hn)).
    rewrite (whole_days_as_int x n Hn), parse_excel_date_int.
    unfold timedelta_of_int_days. cbv zeta.
    destruct (timedelta_fits (n * ns_per_day)); cbn [andb]; [|done].
    destruct (timestamp_fits excel_epoch (n * ns_per_day)); [|done].
    do 2 f_equal. ring.
  - intros x lo d Hlo. destruct (is_nan x) eqn:Hx.
    { unfold parse_excel_date. cbn [isna]. by rewrite Hx. }
    rewrite (parse_excel_date_float x Hx).
    destruct (timedelta_of_float_days x) as [td|] eqn:Htd; [|done].
    destruct (timestamp_fits excel_epoch td); [|done]. intros [= <-]. cbn [ts_value].
    pose proof (days_within_day x lo td Hlo Htd). lia.
  - intros x td Hx Htd H. by rewrite (parse_excel_date_float x Hx), Htd, H.
  - intros x Htd. unfold parse_excel_date. cbn [isna]. rewrite Htd.
    by destruct (is_nan x).
  - intros x td Htd H. unfold parse_excel_date, ts_add. cbn [isna]. rewrite Htd.
    cbn [mbind option_bind]. rewrite H. by destruct (is_nan x).
  - intros s d H. unfold parse_excel_date. cbn [isna]. by rewrite H.
  - intros s H. unfold parse_excel_date. cbn [isna]. by rewrite H.
  - intros v H. unfold parse_excel_date. by rewrite H.
  - apply parse_excel_date_shape.
Qed.

(** C9: parsing is idempotent. A value that is already a datetime comes
    back unchanged, so parsing the result of a parse changes nothing. *)
Theorem parse_excel_date_idempotent :
  (forall d, parse_excel_date (VDate d) = VDate d) /\
  (forall v, parse_excel_date (parse_excel_date v) = parse_excel_date v).
Proof.
  split; [done|]. intros v.
  destruct (parse_excel_date_shape v) as [-> | [d ->]]; done.
Qed.

(** ** transform_data *)

Lemma transform_row_measures (r : RawFilm) : derived_measures_ok (transform_row r).
Proof.
  assert (Hle : forall y, (y <=? 0)%float = true -> (0 <? y)%float = false).
  { intros y. rewrite leb_spec, ltb_spec. unfold SFleb, SFltb.
    change (Prim2SF 0) with (S754_zero false).
    destruct (Prim2SF y) as [s|s| |s m e]; simpl; try done; by destruct s. }
  unfold derived_measures_ok, transform_row.
  destruct (extract_time_components _) as [[[yr qr] mo] mn]. simpl.
  set (box := clean_numeric (BoxOfficeDollars r)).
  set (budget := clean_numeric (BudgetDollars r)).
  assert (Hnone : (forall y, budget = VFloat y -> (0 <? y)%float = false) ->
                  np_where (col_gt0 budget) (col_div (col_sub box budget) budget) = VNone).
  { intros H. unfold np_where, col_gt0.
    destruct budget as [|z|f|s|d]; simpl; try done. by rewrite (H f eq_refl). }
  split_and!.
  - intros x y -> ->. done.
  - intros H. unfold col_sub. simpl. apply is_nan_sub.
    destruct H as [H|H]; [left|right]; by apply isna_as_float64.
  - intros x y -> -> Hy. unfold np_where, col_gt0. simpl. by rewrite Hy.
  - intros y Hbox -> Hy. unfold np_where, col_gt0. simpl. rewrite Hy.
    unfold col_div, col_sub. simpl. apply is_nan_div. left. apply is_nan_sub. left.
    by apply isna_as_float64.
  - done.
  - intros Hna. apply Hnone. intros y ->. simpl in Hna. by apply ltb_nan_r.
  - intros y -> Hy. apply Hnone. intros y' [= <-]. by apply Hle.
Qed.

(** C2: in every row of the transformed batch, [ProfitDollars] is the
    cleaned box office minus the cleaned budget and is missing as soon
    as one of the two is; [ROI] is that difference divided by the
    cleaned budget exactly when the cleaned budget is present and
    strictly positive (a missing box office then makes the quotient
    missing), and is missing in every other case, so no ratio is taken
    against a missing, zero or negative budget. *)
Theorem transform_data_measures (df : list RawFilm) :
  List.length (transform_data df) = List.length df /\
  Forall derived_measures_ok (transform_data df).
Proof.
  unfold transform_data. split; [apply List.length_map|].
  apply Forall_map. apply Forall_forall. intros r _. apply transform_row_measures.
Qed.

(** ** Insert-or-skip on a table *)

Section Upsert.
Context {A : Type}.
Implicit Types (t : gmap Z A) (p : Z * A) (l : list (Z * A)).

Lemma upsert_lookup_old t p k x : t !! k = Some x -> upsert t p !! k = Some x.
Proof.
  intros H. unfold upsert, insert_or_skip.
  destruct (t !! p.1) eqn:E; simpl; [done|].
  rewrite lookup_insert_ne; [done|]. intros Hk. rewrite Hk in E. congruence.
Qed.

Lemma upsert_key t p : is_Some (upsert t p !! p.1).
Proof.
  unfold upsert, insert_or_skip.
  destruct (t !! p.1) eqn:E; simpl; [by rewrite E|].
  rewrite lookup_insert_eq. eauto.
Qed.

Lemma upsert_present t p : is_Some (t !! p.1) -> upsert t p = t.
Proof. intros [x Hx]. unfold upsert, insert_or_skip. by rewrite Hx. Qed.

Lemma upsert_lookup_new t p k x :
  upsert t p !! k = Some x -> t !! k = Some x \/ (t !! k = None /\ p = (k, x)).
Proof.
  unfold upsert, insert_or_skip. destruct p as [k' x']; simpl.
  destruct (t !! k') eqn:E; simpl; [by left|].
  destruct (decide (k' = k)) as [->|Hne].
  - rewrite lookup_insert_eq. intros [= ->]. by right.
  - rewrite lookup_insert_ne by done. by left.
Qed.

Lemma upsert_lookup_fresh t p k : p.1 <> k -> upsert t p !! k = t !! k.
Proof.
  intros Hne. unfold upsert, insert_or_skip.
  destruct (t !! p.1); simpl; [done|]. by rewrite lookup_insert_ne.
Qed.

Lemma upsert_all_lookup_old l t k x :
  t !! k = Some x -> upsert_all l t !! k = Some x.
Proof.
  revert t. induction l as [|p l IH]; intros t H; simpl; [done|].
  apply IH. by apply upsert_lookup_old.
Qed.

Lemma upsert_all_key l t p : In p l -> is_Some (upsert_all l t !! p.1).
Proof.
  revert t. induction l as [|q l IH]; intros t; simpl; [done|].
  intros [->|Hin]; [|by apply IH].
  destruct (upsert_key t p) as [x Hx]. exists x. by apply upsert_all_lookup_old.
Qed.

Lemma upsert_all_present l t :
  (forall p, In p l -> is_Some (t !! p.1)) -> upsert_all l t = t.
Proof.
  revert t. induction l as [|q l IH]; intros t H; simpl; [done|].
  rewrite upsert_present by (apply H; by left). apply IH. intros p Hp. apply H. by right.
Qed.

Lemma upsert_all_idem l t : upsert_all l (upsert_all l t) = upsert_all l t.
Proof. apply upsert_all_present. intros p Hp. by apply upsert_all_key. Qed.

Lemma upsert_all_app l1 l2 t : upsert_all (l1 ++ l2) t = upsert_all l2 (upsert_all l1 t).
Proof. apply fold_left_app. Qed.

Lemma upsert_all_lookup_new l t k x :
  upsert_all l t !! k = Some x ->
  t !! k = Some x \/
  (t !! k = None /\
   exists l1 l2, l = l1 ++ (k, x) :: l2 /\ forall p, In p l1 -> p.1 <> k).
Proof.
  revert t. induction l as [|q l IH]; intros t; simpl; [by left|].
  intros H. destruct (IH _ H) as [Hq | (Hq & l1 & l2 & -> & Hl1)].
  - destruct (upsert_lookup_new _ _ _ _ Hq) as [?|[Hn ->]]; [by left|].
    right. split; [done|]. exists [], l. split; [done|]. intros ? [].
  - destruct (decide (q.1 = k)) as [Hk|Hk].
    + destruct (upsert_key t q) as [y Hy]. rewrite Hk in Hy. congruence.
    + right. rewrite upsert_lookup_fresh in Hq by done. split; [done|].
      exists (q :: l1), l2. split; [done|]. intros p [<-|Hp]; [done|by apply Hl1].
Qed.

Lemma upsert_all_first l1 l2 t k x :
  t !! k = None -> (forall p, In p l1 -> p.1 <> k) ->
  upsert_all (l1 ++ (k, x) :: l2) t !! k = Some x.
Proof.
  intros Hk Hl1. rewrite upsert_all_app. simpl. apply upsert_all_lookup_old.
  assert (upsert_all l1 t !! k = None) as Hn.
  { revert t Hk. induction l1 as [|q l1 IH]; intros t Hk; simpl; [done|].
    apply IH; [intros p Hp; apply Hl1; by right|].
    rewrite upsert_lookup_fresh; [done|]. apply Hl1. by left. }
  unfold upsert, insert_or_skip. simpl. rewrite Hn. simpl. apply lookup_insert_eq.
Qed.

Lemma upsert_size t p :
  (size (upsert t p) = size t + snd (insert_or_skip p.1 p.2 t))%nat.
Proof.
  unfold upsert, insert_or_skip. destruct (t !! p.1) eqn:E; simpl; [lia|].
  rewrite map_size_insert_None by done. lia.
Qed.

End Upsert.

(** ** Tables of a store *)

Local Ltac table_laws := split; intros; try match goal with s : Store |- _ => destruct s end; reflexivity.

#[global] Instance DimTime_laws {db : Schema} : TableLaws DimTime_t.
Proof. table_laws. Qed.
#[global] Instance DimFilm_laws {db : Schema} : TableLaws DimFilm_t.
Proof. table_laws. Qed.
#[global] Instance DimDirector_laws {db : Schema} : TableLaws DimDirector_t.
Proof. table_laws. Qed.
#[global] Instance DimStudio_laws {db : Schema} : TableLaws DimStudio_t.
Proof. table_laws. Qed.
#[global] Instance DimGenre_laws {db : Schema} : TableLaws DimGenre_t.
Proof. table_laws. Qed.
#[global] Instance DimCountry_laws {db : Schema} : TableLaws DimCountry_t.
Proof. table_laws. Qed.
#[global] Instance DimLanguage_laws {db : Schema} : TableLaws DimLanguage_t.
Proof. table_laws. Qed.
#[global] Instance FactFilmPerformance_laws {db : Schema} : TableLaws FactFilmPerformance_t.
Proof. table_laws. Qed.
#[global] Instance dim_table_laws {db : Schema} (d : dimension) : TableLaws (dim_table d).
Proof. destruct d; apply _. Qed.

(** ** The two loop shapes *)

(** *** A store that accepts every row *)

Section Loops.
Context {A B : Type} (T : Table A) `{!TableLaws T} `{!Accepting T}
  (params : B -> option (Z * A)).

(** With every row accepted, [execute] raises in a failed transaction
    only. *)
Lemma try_insert_done k x st :
  failed (conn st) = false ->
  exists st', try_insert T k x st = Done st' /\
    conn st' = {| committed := committed (conn st);
                  pending := with_rows T (upsert (rows_of T (pending (conn st))) (k, x))
                               (pending (conn st));
                  failed := false |} /\
    inserted st'
    = (inserted st + snd (insert_or_skip k x (rows_of T (pending (conn st)))))%nat /\
    errors st' = errors st.
Proof.
  intros Hf. unfold try_insert, execute_insert, upsert. rewrite Hf, accepting.
  cbn [fst snd]. destruct (insert_or_skip k x _) as [t n].
  eexists. split; [reflexivity|]. done.
Qed.

(** A dimension loop on a connection with nothing pending: every row
    whose parameters could be built went through insert-or-skip, in
    order, and was committed; every other row was counted. *)
Lemma commit_each_loop (l : list B) (st : Loader) :
  failed (conn st) = false ->
  pending (conn st) = committed (conn st) ->
  let s := committed (conn st) in
  let st' := fold_left (commit_each T params) l st in
  let t' := upsert_all (omap params l) (rows_of T s) in
  conn st' = connect (with_rows T t' s) /\
  errors st' = (errors st + failures params l)%nat /\
  (inserted st' + size (rows_of T s) = inserted st + size t')%nat.
Proof.
  revert st. induction l as [|r l IH]; intros st Hf Hclean; cbv zeta.
  - simpl. rewrite with_rows_rows_of. unfold failures. simpl.
    split_and!; [|lia|lia]. destruct (conn st) as [c p f]; simpl in *. by subst.
  - cbn [fold_left]. destruct (params r) as [[k x]|] eqn:E.
    + destruct (try_insert_done k x st Hf) as (st1 & Ht & Hc1 & Hi1 & He1).
      assert (commit_each T params st r = then_commit st1) as ->
        by (unfold commit_each; by rewrite E, Ht).
      assert (omap params (r :: l) = (k, x) :: omap params l) as ->
        by (simpl; by rewrite E).
      assert (failures params (r :: l) = failures params l) as ->
        by (unfold failures; simpl; by rewrite E).
      assert (conn (then_commit st1)
              = connect (with_rows T (upsert (rows_of T (committed (conn st))) (k, x))
                           (committed (conn st)))) as Hc2.
      { unfold then_commit, commit. cbn [conn]. rewrite Hc1. cbn [failed pending].
        by rewrite Hclean. }
      destruct (IH (then_commit st1)) as (Hc & He & Hi);
        [by rewrite Hc2|by rewrite Hc2|].
      rewrite Hc2 in Hc, Hi. cbn [connect committed] in Hc, Hi.
      cbn [then_commit errors inserted] in He, Hi.
      rewrite rows_of_with_rows, with_rows_with_rows in Hc.
      rewrite rows_of_with_rows in Hi.
      rewrite Hclean in Hi1. rewrite He1 in He. rewrite Hi1 in Hi.
      pose proof (upsert_size (rows_of T (committed (conn st))) (k, x)) as Hs.
      cbn [fst snd] in Hs. unfold upsert_all at 1 2. cbn [fold_left].
      fold (upsert_all (omap params l) (upsert (rows_of T (committed (conn st))) (k, x))).
      split_and!; [done|done|lia].
    + assert (commit_each T params st r = on_error st) as ->
        by (unfold commit_each; by rewrite E).
      assert (omap params (r :: l) = omap params l) as ->
        by (simpl; by rewrite E).
      assert (failures params (r :: l) = S (failures params l)) as ->
        by (unfold failures; simpl; by rewrite E).
      destruct (IH (on_error st)) as (Hc & He & Hi); [done|done|].
      cbn [on_error conn rollback committed pending errors inserted] in Hc, He, Hi.
      split_and!; [done|lia|done].
Qed.

Lemma after_last_failure_snoc (l : list B) (r : B) :
  after_last_failure params (l ++ [r])
  = if raises (params r) then [] else after_last_failure params l ++ [r].
Proof. unfold after_last_failure. by rewrite fold_left_app. Qed.

(** The fact loop: the stored state never moves; what is pending is the
    starting state of the open transaction, or the stored state once a
    row has raised, plus the rows after the last one that raised. *)
Lemma commit_last_loop (l : list B) (st : Loader) :
  failed (conn st) = false ->
  let st' := fold_left (commit_last T params) l st in
  let base := if existsb (fun r => raises (params r)) l
              then committed (conn st) else pending (conn st) in
  failed (conn st') = false /\
  committed (conn st') = committed (conn st) /\
  pending (conn st')
  = with_rows T (upsert_all (omap params (after_last_failure params l)) (rows_of T base))
      base /\
  errors st' = (errors st + failures params l)%nat.
Proof.
  intros Hf0. induction l as [|r l IH] using rev_ind; cbv zeta.
  - simpl. rewrite with_rows_rows_of. unfold failures. simpl.
    split_and!; [done|done|done|lia].
  - cbv zeta in IH. destruct IH as (Hf & Hc & Hp & He).
    rewrite fold_left_app, after_last_failure_snoc, existsb_app. cbn [fold_left existsb].
    unfold failures. rewrite List.filter_app, List.length_app. cbn [List.filter].
    set (st0 := fold_left (commit_last T params) l st) in *.
    destruct (params r) as [[k x]|] eqn:E; cbn [raises].
    + destruct (try_insert_done k x st0 Hf) as (st1 & Ht & Hc1 & _ & He1).
      assert (commit_last T params st0 r = st1) as ->
        by (unfold commit_last; by rewrite E, Ht).
      rewrite orb_false_r, Hc1, He1, He. cbn [failed committed pending List.length].
      unfold failures. split_and!; [done|done| |lia].
      rewrite Hp, rows_of_with_rows, with_rows_with_rows, omap_app, upsert_all_app.
      simpl. by rewrite E.
    + assert (commit_last T params st0 r = on_error st0) as ->
        by (unfold commit_last; by rewrite E).
      rewrite orb_true_r. unfold on_error, rollback. cbn [conn failed committed pending errors].
      cbn [omap upsert_all fold_left list_omap].
      rewrite with_rows_rows_of, Hc, He. unfold failures. cbn [List.length].
      split_and!; [done|done|done|lia].
Qed.

End Loops.

(** ** Duplicates *)

Lemma SFeqb_finite_inv s1 m1 e1 s2 m2 e2 :
  SFeqb (S754_finite s1 m1 e1) (S754_finite s2 m2 e2) = true ->
  s1 = s2 /\ m1 = m2 /\ e1 = e2.
Proof.
  unfold SFeqb, SFcompare.
  destruct s1, s2; try done; destruct (Z.compare e1 e2) eqn:Ee; try done;
    apply Z.compare_eq in Ee; subst;
    destruct (Pos.compare_cont Eq m1 m2) eqn:Em; try done;
    apply Pos.compare_eq in Em; by subst.
Qed.

Lemma eqb_int_of_float (x y : float) :
  (x =? y)%float = true -> int_of_float x = int_of_float y.
Proof.
  rewrite FloatAxioms.eqb_spec. unfold int_of_float.
  destruct (Prim2SF x) as [s1|s1| |s1 m1 e1], (Prim2SF y) as [s2|s2| |s2 m2 e2];
    try done;
    try (unfold SFeqb; simpl; by repeat match goal with s : bool |- _ => destruct s end).
  intros (-> & -> & ->)%SFeqb_finite_inv. done.
Qed.

(** A float that is a whole number is its own floor. *)
Lemma integral_floor (x : float) (n : Z) :
  integral x = Some n -> floor_of_float x = Some n.
Proof.
  unfold integral, floor_of_float. destruct (Prim2SF x) as [s|s| |s m e]; try done.
  destruct ((0 <=? e) || (Z.pos m mod 2 ^ (- e) =? 0)) eqn:E; [|done].
  intros [= <-]. f_equal. destruct s; [|done].
  change (Z.neg m) with (- Z.pos m).
  apply orb_true_iff in E as [E|E].
  - apply Z.leb_le in E. rewrite !Z.shiftl_mul_pow2 by done. ring.
  - apply Z.eqb_eq in E. destruct (Z.le_gt_cases 0 e) as [He|He].
    + rewrite !Z.shiftl_mul_pow2 by done. ring.
    + rewrite !Z.shiftl_div_pow2 by lia.
      apply Z.div_opp_l_z; [|done]. apply Z.pow_nonzero; lia.
Qed.

Lemma integral_int_of_float (x : float) (n : Z) :
  integral x = Some n -> int_of_float x = Some n.
Proof.
  unfold integral, int_of_float.
  destruct (Prim2SF x) as [s|s| |s m e]; try done.
  destruct (_ || _); [|done]. by destruct s.
Qed.

(** Two cells that are the same key convert to the same integer, or
    both fail to convert. *)
Lemma same_cell_py_int (a b : value) : same_cell a b = true -> py_int a = py_int b.
Proof.
  unfold same_cell. destruct (isna a) eqn:Ha.
  - intros Hb. destruct a as [| | f | |], b as [| | g | |]; try done; simpl in *.
    + apply is_nan_spec in Hb. unfold int_of_float. by rewrite Hb.
    + apply is_nan_spec in Ha. unfold int_of_float. by rewrite Ha.
    + apply is_nan_spec in Ha, Hb. unfold int_of_float. by rewrite Ha, Hb.
  - destruct a as [|x|x|x|x], b as [|y|y|y|y]; try done; simpl.
    + by intros ->%Z.eqb_eq.
    + intros H%bool_decide_eq_true. symmetry. by apply integral_int_of_float.
    + intros H%bool_decide_eq_true. by apply integral_int_of_float.
    + apply eqb_int_of_float.
    + by intros ->%bool_decide_eq_true.
Qed.

Section Dedupe.
Context {A : Type} (key : A -> value).

Lemma drop_duplicates_from_In seen (l : list A) x :
  In x (drop_duplicates_from key seen l) -> In x l.
Proof.
  revert seen. induction l as [|h l IH]; intros seen; simpl; [done|].
  destruct (existsb _ seen); simpl; intros H.
  - right. by eapply IH.
  - destruct H as [->|H]; [by left|]. right. by eapply IH.
Qed.

(** A row is kept exactly when no earlier row, and nothing seen before,
    carries its key. *)
Lemma drop_duplicates_from_first seen (l : list A) x :
  In x (drop_duplicates_from key seen l) <->
  exists l1 l2, l = l1 ++ x :: l2 /\
    (forall y, In y l1 -> same_cell (key x) (key y) = false) /\
    (forall v, In v seen -> same_cell (key x) v = false).
Proof.
  revert seen. induction l as [|h l IH]; intros seen; simpl.
  - split; [done|]. intros (l1 & l2 & H & _). by destruct l1.
  - assert (Htail : In x (drop_duplicates_from key (key h :: seen) l) <->
      exists l1 l2, h :: l = (h :: l1) ++ x :: l2 /\
        (forall y, In y (h :: l1) -> same_cell (key x) (key y) = false) /\
        (forall v, In v seen -> same_cell (key x) v = false)).
    { rewrite IH. split.
      - intros (l1 & l2 & -> & H1 & H2). exists l1, l2. split_and!; [done| |].
        + intros y [<-|Hy]; [apply H2; by left|by apply H1].
        + intros v Hv. apply H2. by right.
      - intros (l1 & l2 & [= ->] & H1 & H2). exists l1, l2. split_and!; [done| |].
        + intros y Hy. apply H1. by right.
        + intros v [<-|Hv]; [apply H1; by left|by apply H2]. }
    destruct (existsb (same_cell (key h)) seen) eqn:E.
    + rewrite Htail. split.
      * intros (l1 & l2 & ? & ? & ?). by exists (h :: l1), l2.
      * intros (l1 & l2 & Hl & H1 & H2). destruct l1 as [|h' l1].
        -- injection Hl as -> ->. apply existsb_exists in E as (v & Hv & Hs).
           rewrite H2 in Hs; done.
        -- injection Hl as <- ->. by exists l1, l2.
    + simpl. rewrite Htail. split.
      * intros [->|(l1 & l2 & ? & ? & ?)].
        -- exists [], l. split_and!; [done|done|].
           intros v Hv. destruct (same_cell (key x) v) eqn:Es; [|done].
           assert (existsb (same_cell (key x)) seen = true) as Hex
             by (apply existsb_exists; eauto). congruence.
        -- by exists (h :: l1), l2.
      * intros (l1 & l2 & Hl & H1 & H2). destruct l1 as [|h' l1].
        -- injection Hl as -> ->. by left.
        -- injection Hl as <- ->. right. by exists l1, l2.
Qed.

(** The kept rows carry pairwise different keys. *)
Lemma drop_duplicates_from_distinct seen (l : list A) r1 x r2 :
  drop_duplicates_from key seen l = r1 ++ x :: r2 ->
  forall y, In y r1 -> same_cell (key x) (key y) = false.
Proof.
  revert seen r1. induction l as [|h l IH]; intros seen r1; simpl.
  - by destruct r1.
  - destruct (existsb _ seen); [by apply IH|].
    destruct r1 as [|h' r1]; simpl; [done|]. intros [= <- Hl] y [<-|Hy].
    + assert (In x (drop_duplicates_from key (key h :: seen) l)) as Hx.
      { rewrite Hl. apply in_or_app. right. by left. }
      apply drop_duplicates_from_first in Hx as (_ & _ & _ & _ & H2).
      apply H2. by left.
    + by eapply IH.
Qed.

(** Every row has a kept row with the same integer key. *)
Lemma drop_duplicates_from_covers seen (l : list A) x :
  In x l ->
  (exists y, In y (drop_duplicates_from key seen l) /\
             py_int (key y) = py_int (key x)) \/
  (exists v, In v seen /\ py_int v = py_int (key x)).
Proof.
  revert seen. induction l as [|h l IH]; intros seen; simpl; [done|].
  destruct (existsb (same_cell (key h)) seen) eqn:E.
  - apply existsb_exists in E as (v & Hv & Hs%same_cell_py_int).
    intros [->|Hx].
    + right. eauto.
    + destruct (IH (key h :: seen) Hx) as [(y & Hy & Hk)|(w & [<-|Hw] & Hk)].
      * left. eauto.
      * right. exists v. split; [done|]. congruence.
      * right. eauto.
  - intros [->|Hx].
    + left. exists x. split; [by left|done].
    + destruct (IH (key h :: seen) Hx) as [(y & Hy & Hk)|(w & [<-|Hw] & Hk)].
      * left. exists y. split; [by right|done].
      * left. exists h. split; [by left|done].
      * right. eauto.
Qed.

(** Deduplicating a list in two parts: the second part is checked
    against the keys of the first. *)
Lemma drop_duplicates_from_app seen (l1 l2 : list A) :
  drop_duplicates_from key seen (l1 ++ l2)
  = drop_duplicates_from key seen l1
    ++ drop_duplicates_from key (rev (map key l1) ++ seen) l2.
Proof.
  revert seen. induction l1 as [|a l1 IH]; intros seen; simpl; [done|].
  rewrite IH, <- app_assoc. simpl. by destruct (existsb _ seen).
Qed.

Lemma drop_duplicates_first (l : list A) x :
  In x (drop_duplicates key l) <->
  exists l1 l2, l = l1 ++ x :: l2 /\
    (forall y, In y l1 -> same_cell (key x) (key y) = false).
Proof.
  unfold drop_duplicates. rewrite drop_duplicates_from_first. split.
  - intros (l1 & l2 & ? & ? & _). eauto.
  - intros (l1 & l2 & ? & ?). exists l1, l2. split_and!; [done|done|]. intros ? [].
Qed.

Lemma drop_duplicates_covers (l : list A) x :
  In x l -> exists y, In y (drop_duplicates key l) /\ py_int (key y) = py_int (key x).
Proof.
  intros Hx. destruct (drop_duplicates_from_covers [] l x Hx) as [?|(? & [] & _)]. done.
Qed.

End Dedupe.

(** ** What each loader leaves in the warehouse *)

(** The tables of the schema without constraints accept every row. *)
#[global] Instance DimTime_accepting : Accepting (DimTime_t (db := permissive)).
Proof. done. Qed.
#[global] Instance DimFilm_accepting : Accepting (DimFilm_t (db := permissive)).
Proof. done. Qed.
#[global] Instance DimDirector_accepting : Accepting (DimDirector_t (db := permissive)).
Proof. done. Qed.
#[global] Instance DimStudio_accepting : Accepting (DimStudio_t (db := permissive)).
Proof. done. Qed.
#[global] Instance DimGenre_accepting : Accepting (DimGenre_t (db := permissive)).
Proof. done. Qed.
#[global] Instance DimCountry_accepting : Accepting (DimCountry_t (db := permissive)).
Proof. done. Qed.
#[global] Instance DimLanguage_accepting : Accepting (DimLanguage_t (db := permissive)).
Proof. done. Qed.
#[global] Instance FactFilmPerformance_accepting :
  Accepting (FactFilmPerformance_t (db := permissive)).
Proof. done. Qed.
#[global] Instance dim_table_accepting (d : dimension) :
  Accepting (dim_table (db := permissive) d).
Proof. by destruct d. Qed.

(** From here on the store accepts every row: a row fails when its
    parameters cannot be built, and only then. Stores that reject rows
    are the subject of the last part. *)
#[local] Existing Instance permissive.

Lemma load_dimension_time_loop (df : list CleanFilm) (s : Store) :
  let st := load_dimension_time df (connect s) in
  let t' := upsert_all (omap time_params (time_data df)) (DimTime s) in
  conn st = connect (with_rows DimTime_t t' s) /\
  errors st = failures time_params (time_data df) /\
  (inserted st + size (DimTime s) = size t')%nat.
Proof.
  by apply (commit_each_loop DimTime_t time_params (time_data df) (start (connect s))).
Qed.

Lemma load_dimension_film_loop (df : list CleanFilm) (s : Store) :
  let st := load_dimension_film df (connect s) in
  let t' := upsert_all (omap film_params df) (DimFilm s) in
  conn st = connect (with_rows DimFilm_t t' s) /\
  errors st = failures film_params df /\
  (inserted st + size (DimFilm s) = size t')%nat.
Proof. by apply (commit_each_loop DimFilm_t film_params df (start (connect s))). Qed.

Lemma load_dimension_generic_loop (T : Table string) `{!TableLaws T} `{!Accepting T}
    (id_col : CleanFilm -> value) (display_name : string)
    (df : list CleanFilm) (s : Store) :
  let st := load_dimension_generic df (connect s) T id_col display_name in
  let ids := unique_values id_col df in
  let t' := upsert_all (omap (generic_params display_name) ids) (rows_of T s) in
  conn st = connect (with_rows T t' s) /\
  errors st = failures (generic_params display_name) ids /\
  (inserted st + size (rows_of T s) = size t')%nat.
Proof.
  by apply (commit_each_loop T (generic_params display_name) (unique_values id_col df)
              (start (connect s))).
Qed.

Lemma load_fact_table_loop (df : list CleanFilm) (s : Store) :
  let st := load_fact_table df (connect s) in
  let t' := upsert_all (omap fact_params (after_last_failure fact_params df))
              (FactFilmPerformance s) in
  conn st = connect (with_rows FactFilmPerformance_t t' s) /\
  errors st = failures fact_params df.
Proof.
  cbv zeta. unfold load_fact_table.
  destruct (commit_last_loop FactFilmPerformance_t fact_params df (start (connect s)))
    as (Hf & Hc & Hp & He); [done|].
  change (fold_left (commit_last FactFilmPerformance_t fact_params)) with
    (fold_left load_fact_row) in Hf, Hc, Hp, He.
  unfold then_commit, commit. cbn [conn errors]. rewrite Hf, Hp, He. split; [|done].
  unfold start, connect. cbn [conn committed pending]. by destruct (existsb _ df).
Qed.

(** The warehouse after the load stage, table by table. *)
Lemma run_load_tables (df : list CleanFilm) (s : Store) :
  run_load df s =
  {| DimTime := upsert_all (omap time_params (time_data df)) (DimTime s);
     DimFilm := upsert_all (omap film_params df) (DimFilm s);
     DimDirector :=
       upsert_all (omap (generic_params "Director")
                     (unique_values (fun r => DirectorID (raw r)) df)) (DimDirector s);
     DimStudio :=
       upsert_all (omap (generic_params "Studio")
                     (unique_values (fun r => StudioID (raw r)) df)) (DimStudio s);
     DimGenre :=
       upsert_all (omap (generic_params "Genre")
                     (unique_values (fun r => GenreID (raw r)) df)) (DimGenre s);
     DimCountry :=
       upsert_all (omap (generic_params "Country")
                     (unique_values (fun r => CountryID (raw r)) df)) (DimCountry s);
     DimLanguage :=
       upsert_all (omap (generic_params "Language")
                     (unique_values (fun r => LanguageID (raw r)) df)) (DimLanguage s);
     FactFilmPerformance :=
       upsert_all (omap fact_params (after_last_failure fact_params df))
         (FactFilmPerformance s) |}.
Proof.
  unfold run_load, load_stage.
  rewrite (proj1 (load_dimension_time_loop df s)).
  rewrite (proj1 (load_dimension_film_loop df _)).
  rewrite (proj1 (load_dimension_generic_loop DimDirector_t _ _ df _)).
  rewrite (proj1 (load_dimension_generic_loop DimStudio_t _ _ df _)).
  rewrite (proj1 (load_dimension_generic_loop DimGenre_t _ _ df _)).
  rewrite (proj1 (load_dimension_generic_loop DimCountry_t _ _ df _)).
  rewrite (proj1 (load_dimension_generic_loop DimLanguage_t _ _ df _)).
  rewrite (proj1 (load_fact_table_loop df _)).
  reflexivity.
Qed.

(** C1: the load stage is idempotent. Every insert is an insert-or-skip
    on the primary key, so a run leaves every row it found as it was,
    and a second run on the same cleaned batch leaves the warehouse,
    table by table and row by row, as the first run left it: no row is
    added and none is changed. *)
Theorem load_stage_idempotent (df : list CleanFilm) (s : Store) :
  run_load df (run_load df s) = run_load df s /\
  (forall k x, DimTime s !! k = Some x -> DimTime (run_load df s) !! k = Some x) /\
  (forall k x, DimFilm s !! k = Some x -> DimFilm (run_load df s) !! k = Some x) /\
  (forall k x, DimDirector s !! k = Some x -> DimDirector (run_load df s) !! k = Some x) /\
  (forall k x, DimStudio s !! k = Some x -> DimStudio (run_load df s) !! k = Some x) /\
  (forall k x, DimGenre s !! k = Some x -> DimGenre (run_load df s) !! k = Some x) /\
  (forall k x, DimCountry s !! k = Some x -> DimCountry (run_load df s) !! k = Some x) /\
  (forall k x, DimLanguage s !! k = Some x -> DimLanguage (run_load df s) !! k = Some x) /\
  (forall k x, FactFilmPerformance s !! k = Some x ->
     FactFilmPerformance (run_load df s) !! k = Some x).
Proof.
  split.
  - rewrite (run_load_tables df (run_load df s)), (run_load_tables df s).
    cbn [DimTime DimFilm DimDirector DimStudio DimGenre DimCountry DimLanguage
         FactFilmPerformance].
    by rewrite !upsert_all_idem.
  - rewrite run_load_tables.
    cbn [DimTime DimFilm DimDirector DimStudio DimGenre DimCountry DimLanguage
         FactFilmPerformance].
    split_and!; intros k x H; by apply upsert_all_lookup_old.
Qed.

(** ** The dimension loaders *)

Lemma In_omap {X Y} (f : X -> option Y) (l : list X) (y : Y) :
  In y (omap f l) <-> exists x, In x l /\ f x = Some y.
Proof.
  rewrite <- list_elem_of_In, list_elem_of_omap.
  by setoid_rewrite list_elem_of_In.
Qed.

Lemma generic_params_pairs (display_name : string) (ids : list value) k x :
  In (k, x) (omap (generic_params display_name) ids) <->
  x = name_value display_name k /\ exists v, In v ids /\ py_int v = Some k.
Proof.
  rewrite In_omap. unfold generic_params. split.
  - intros (v & Hv & H). destruct (py_int v) as [n|] eqn:E; simpl in H; [|done].
    injection H as <- <-. eauto.
  - intros (-> & v & Hv & E). exists v. split; [done|]. by rewrite E.
Qed.

Lemma unique_values_In (id_col : CleanFilm -> value) (df : list CleanFilm) v :
  In v (unique_values id_col df) ->
  notna v = true /\ exists row, In row df /\ id_col row = v.
Proof.
  unfold unique_values, drop_duplicates. intros H%drop_duplicates_from_In.
  apply filter_In in H as [(row & <- & Hrow)%in_map_iff Hn]. eauto.
Qed.

Lemma to_int_proper (z : Z) :
  Z.to_int z <> Decimal.Pos Decimal.Nil /\ Z.to_int z <> Decimal.Neg Decimal.Nil.
Proof.
  destruct z as [|p|p]; simpl; split; try discriminate.
  - intros [= H]. revert H. apply Unsigned.to_uint_nonnil.
  - intros [= H]. revert H. apply Unsigned.to_uint_nonnil.
Qed.

(** The decimal text of an integer reads back as that integer. *)
Lemma str_of_int_reads_back (k : Z) :
  Z.of_int <$> NilZero.int_of_string (str_of_int k) = Some k.
Proof.
  unfold str_of_int. destruct (to_int_proper k) as [H1 H2].
  rewrite (NilZero.isi _ H1 H2). simpl. f_equal. apply DecimalZ.of_to.
Qed.

(** C8: the generic dimension loader iterates over the first occurrence
    of every non-missing value of the ID column, each value once; it
    leaves every row already in the table as it is, and every new row
    it stores under an ID carries the name made of the label, an
    underscore and the decimal text of the ID (a text that reads back as
    the ID), so all source rows with one ID end in one (ID, name)
    pair. *)
Theorem generic_dimension_load (d : dimension) (id_col : CleanFilm -> value)
    (display_name : string) (df : list CleanFilm) (s : Store) :
  let column := List.filter notna (map id_col df) in
  let ids := unique_values id_col df in
  let st := load_dimension_generic df (connect s) (dim_table d) id_col display_name in
  let t := rows_of (dim_table d) s in
  let t' := rows_of (dim_table d) (committed (conn st)) in
  (forall v, In v ids <->
     exists l1 l2, column = l1 ++ v :: l2 /\
       forall w, In w l1 -> same_cell v w = false) /\
  (forall v, In v ids -> notna v = true /\ exists row, In row df /\ id_col row = v) /\
  (forall r1 v r2, ids = r1 ++ v :: r2 ->
     forall w, In w r1 -> same_cell v w = false) /\
  (forall k x, t !! k = Some x -> t' !! k = Some x) /\
  (forall row k, In row df -> notna (id_col row) = true ->
     py_int (id_col row) = Some k -> t !! k = None ->
     t' !! k = Some (display_name ++ "_" ++ str_of_int k)%string) /\
  (forall k x, t' !! k = Some x ->
     t !! k = Some x \/
     (x = (display_name ++ "_" ++ str_of_int k)%string /\
      exists row, In row df /\ notna (id_col row) = true /\
                  py_int (id_col row) = Some k)) /\
  (forall k, Z.of_int <$> NilZero.int_of_string (str_of_int k) = Some k) /\
  pending (conn st) = committed (conn st).
Proof.
  cbv zeta.
  destruct (load_dimension_generic_loop (dim_table d) id_col display_name df s)
    as (Hc & _ & _).
  rewrite Hc. unfold connect. cbn [committed pending]. rewrite rows_of_with_rows.
  split_and!.
  - intros v. apply (drop_duplicates_first (fun v => v)).
  - apply unique_values_In.
  - intros r1 v r2 H. exact (drop_duplicates_from_distinct (fun v => v) [] _ r1 v r2 H).
  - intros k x. apply upsert_all_lookup_old.
  - intros row k Hrow Hn Hk Hnew.
    change (display_name ++ "_" ++ str_of_int k)%string with (name_value display_name k).
    assert (In (id_col row) (List.filter notna (map id_col df))) as Hin.
    { apply filter_In. split; [|done]. apply in_map_iff. eauto. }
    destruct (drop_duplicates_covers (fun v => v) _ _ Hin) as (v & Hv & Hvk).
    assert (In (k, name_value display_name k)
              (omap (generic_params display_name) (unique_values id_col df))) as Hp.
    { apply generic_params_pairs. split; [done|]. exists v. split; [done|]. congruence. }
    destruct (upsert_all_key _ (rows_of (dim_table d) s) _ Hp) as [x Hx].
    cbn [fst] in Hx. rewrite Hx. f_equal.
    apply upsert_all_lookup_new in Hx as [Hx|(_ & l1 & l2 & Hl & _)]; [congruence|].
    assert (In (k, x) (omap (generic_params display_name) (unique_values id_col df))) as Hq.
    { rewrite Hl. apply in_or_app. right. by left. }
    by apply generic_params_pairs in Hq as [-> _].
  - intros k x Hx.
    change (display_name ++ "_" ++ str_of_int k)%string with (name_value display_name k).
    apply upsert_all_lookup_new in Hx as [Hx|(_ & l1 & l2 & Hl & _)]; [by left|right].
    assert (In (k, x) (omap (generic_params display_name) (unique_values id_col df))) as Hq.
    { rewrite Hl. apply in_or_app. right. by left. }
    apply generic_params_pairs in Hq as (-> & v & Hv & Hk). split; [done|].
    apply unique_values_In in Hv as (Hn & row & Hrow & <-). eauto.
  - apply str_of_int_reads_back.
  - done.
Qed.

(** ** The time dimension *)

Lemma time_data_In (df : list CleanFilm) r :
  In r (time_data df) -> notna (ReleaseDate_Parsed r) = true /\ In r df.
Proof.
  unfold time_data, drop_duplicates. intros H%drop_duplicates_from_In.
  apply filter_In in H as [? ?]. done.
Qed.

Lemma time_params_date (r : CleanFilm) k x :
  time_params r = Some (k, x) -> tr_FullDate x = ReleaseDate_Parsed r.
Proof.
  unfold time_params. intros H.
  destruct (py_int _); simpl in H; [|done].
  destruct (int_if_notna (Year r)); simpl in H; [|done].
  destruct (int_if_notna (Quarter r)); simpl in H; [|done].
  destruct (int_if_notna (Month r)); simpl in H; [|done].
  by injection H as <- <-.
Qed.

Lemma time_params_key (r : CleanFilm) k x :
  time_params r = Some (k, x) -> py_int (RunTimeMinutes (raw r)) = Some k.
Proof.
  unfold time_params. intros H.
  destruct (py_int _); simpl in H; [|done].
  destruct (int_if_notna (Year r)); simpl in H; [|done].
  destruct (int_if_notna (Quarter r)); simpl in H; [|done].
  destruct (int_if_notna (Month r)); simpl in H; [|done].
  by injection H as <- <-.
Qed.

(** C5, as amended: the time-dimension loader first drops every row
    whose [ParsedDate] is missing and then, among the rows that are
    left, keeps the first row of every [RunTimeMinutes] key. So of two
    dated rows with one key only the first is iterated, and it is the
    one stored: the first dated row of a key that was free is what the
    table holds under that key afterwards. No row with a missing date is
    ever inserted, every row the loader adds comes from an iterated row,
    and the rows already stored stay as they are. *)
Theorem time_dimension_load (df : list CleanFilm) (s : Store) :
  let dated := List.filter (fun r => notna (ReleaseDate_Parsed r)) df in
  let st := load_dimension_time df (connect s) in
  let t := DimTime s in
  let t' := DimTime (committed (conn st)) in
  (forall r, In r (time_data df) <->
     exists l1 l2, dated = l1 ++ r :: l2 /\
       forall r0, In r0 l1 ->
         same_cell (RunTimeMinutes (raw r)) (RunTimeMinutes (raw r0)) = false) /\
  (forall r, In r (time_data df) -> notna (ReleaseDate_Parsed r) = true /\ In r df) /\
  (forall l1 r l2, time_data df = l1 ++ r :: l2 ->
     forall r0, In r0 l1 ->
       same_cell (RunTimeMinutes (raw r)) (RunTimeMinutes (raw r0)) = false) /\
  (forall k x, t !! k = Some x -> t' !! k = Some x) /\
  (forall k x, t' !! k = Some x ->
     t !! k = Some x \/
     exists r, In r (time_data df) /\ time_params r = Some (k, x)) /\
  (forall k x, t' !! k = Some x -> t !! k = None -> notna (tr_FullDate x) = true) /\
  (forall l1 r l2 k x, dated = l1 ++ r :: l2 -> time_params r = Some (k, x) ->
     (forall r0, In r0 l1 -> py_int (RunTimeMinutes (raw r0)) <> Some k) ->
     t !! k = None -> t' !! k = Some x).
Proof.
  cbv zeta. destruct (load_dimension_time_loop df s) as (Hc & _ & _).
  rewrite Hc. unfold connect. cbn [committed].
  assert (Hnew : forall k x,
    upsert_all (omap time_params (time_data df)) (DimTime s) !! k = Some x ->
    DimTime s !! k = Some x \/
    exists r, In r (time_data df) /\ time_params r = Some (k, x)).
  { intros k x Hx.
    apply upsert_all_lookup_new in Hx as [Hx|(_ & l1 & l2 & Hl & _)]; [by left|right].
    apply In_omap. rewrite Hl. apply in_or_app. right. by left. }
  split_and!.
  - intros r. apply (drop_duplicates_first (fun r => RunTimeMinutes (raw r))).
  - apply time_data_In.
  - intros l1 r l2 H.
    exact (drop_duplicates_from_distinct (fun r => RunTimeMinutes (raw r)) [] _ l1 r l2 H).
  - intros k x. apply upsert_all_lookup_old.
  - exact Hnew.
  - intros k x Hx Hk. destruct (Hnew k x Hx) as [?|(r & Hr & Hp)]; [congruence|].
    rewrite (time_params_date _ _ _ Hp). by apply time_data_In in Hr as [? _].
  - intros l1 r l2 k x Hdated Hp Hl1 Hk.
    pose proof (time_params_key r k x Hp) as Hrk.
    unfold time_data, drop_duplicates. rewrite Hdated, drop_duplicates_from_app.
    cbn [drop_duplicates_from].
    destruct (existsb _ (rev _ ++ [])) eqn:E.
    { apply existsb_exists in E as (v & Hv & Hs). rewrite app_nil_r in Hv.
      apply in_rev, in_map_iff in Hv as (r0 & <- & Hr0).
      apply same_cell_py_int in Hs. destruct (Hl1 r0 Hr0). congruence. }
    rewrite omap_app. cbn [omap list_omap]. rewrite Hp.
    apply upsert_all_first; [done|].
    intros [k' x'] (r0 & Hr0 & Hp0)%In_omap Hk'. cbn [fst] in Hk'. subst k'.
    apply drop_duplicates_from_In in Hr0.
    apply (Hl1 r0 Hr0). by apply (time_params_key r0 k x').
Qed.

(** ** Failures of single rows *)

Lemma failing_row_omap {X Y} (f : X -> option Y) (pre post : list X) (bad : X) :
  f bad = None -> omap f (pre ++ bad :: post) = omap f (pre ++ post).
Proof. intros H. rewrite !omap_app. simpl. by rewrite H. Qed.

Lemma after_last_failure_ok {X Y} (f : X -> option Y) (post acc : list X) :
  (forall r, In r post -> f r <> None) ->
  fold_left (fun acc r => if raises (f r) then [] else acc ++ [r]) post acc = acc ++ post.
Proof.
  revert acc. induction post as [|r post IH]; intros acc H; simpl.
  - by rewrite app_nil_r.
  - destruct (f r) eqn:E; simpl.
    + rewrite IH by (intros; apply H; by right). by rewrite <- app_assoc.
    + exfalso. apply (H r); [by left|done].
Qed.

Lemma after_last_failure_split {X Y} (f : X -> option Y) (pre post : list X) (bad : X) :
  f bad = None -> (forall r, In r post -> f r <> None) ->
  after_last_failure f (pre ++ bad :: post) = post.
Proof.
  intros Hbad Hpost. unfold after_last_failure. rewrite fold_left_app. simpl.
  rewrite Hbad. simpl. by rewrite after_last_failure_ok.
Qed.


(** ** The fact rows *)

Lemma fact_params_time (row : CleanFilm) k x :
  fact_params row = Some (k, x) ->
  int_if_notna (RunTimeMinutes (raw row)) = Some (fr_TimeID x) /\
  int_if_notna (RunTimeMinutes (raw row)) = Some (fr_RunTimeMinutes x).
Proof.
  unfold fact_params. intros H.
  destruct (py_int (FilmID (raw row))); simpl in H; [|done].
  destruct (int_if_notna (DirectorID (raw row))); simpl in H; [|done].
  destruct (int_if_notna (StudioID (raw row))); simpl in H; [|done].
  destruct (int_if_notna (GenreID (raw row))); simpl in H; [|done].
  destruct (int_if_notna (CountryID (raw row))); simpl in H; [|done].
  destruct (int_if_notna (LanguageID (raw row))); simpl in H; [|done].
  destruct (int_if_notna (RunTimeMinutes (raw row))) as [t|]; simpl in H; [|done].
  destruct (if notna (OscarNominations (raw row)) then _ else _); simpl in H; [|done].
  destruct (if notna (OscarWins (raw row)) then _ else _); simpl in H; [|done].
  destruct (if notna (ROI row) then _ else _); simpl in H; [|done].
  by injection H as <- <-.
Qed.

(** C10: in every parameter tuple the fact loader builds, and so in
    every fact row it stores, [TimeID] and [RunTimeMinutes] are the same
    value: the integer of the row's [RunTimeMinutes] cell, or null when
    that cell is missing. The parsed date plays no part: the same row
    with any other parsed date gives the same tuple. *)
Theorem fact_time_key (df : list CleanFilm) (s : Store) :
  let st := load_fact_table df (connect s) in
  (forall row k x, fact_params row = Some (k, x) ->
     fr_TimeID x = fr_RunTimeMinutes x /\
     (isna (RunTimeMinutes (raw row)) = true -> fr_TimeID x = None) /\
     (isna (RunTimeMinutes (raw row)) = false ->
        is_Some (fr_TimeID x) /\ fr_TimeID x = py_int (RunTimeMinutes (raw row))) /\
     (forall d, fact_params (with_parsed_date d row) = Some (k, x))) /\
  (forall k x, FactFilmPerformance (committed (conn st)) !! k = Some x ->
     FactFilmPerformance s !! k = Some x \/
     exists row, In row df /\ fact_params row = Some (k, x)).
Proof.
  cbv zeta. split.
  - intros row k x Hp. destruct (fact_params_time row k x Hp) as [Ht Hr].
    split_and!.
    + congruence.
    + intros Hna. unfold int_if_notna, notna in Ht. rewrite Hna in Ht. simpl in Ht.
      congruence.
    + intros Hna. unfold int_if_notna, notna in Ht. rewrite Hna in Ht. simpl in Ht.
      destruct (py_int (RunTimeMinutes (raw row))) as [n|]; simpl in Ht; [|done].
      injection Ht as <-. eauto.
    + intros d. exact Hp.
  - intros k x. rewrite (proj1 (load_fact_table_loop df s)). unfold connect.
    cbn [committed FactFilmPerformance_t with_rows FactFilmPerformance].
    intros Hx.
    apply upsert_all_lookup_new in Hx as [Hx|(_ & l1 & l2 & Hl & _)]; [by left|right].
    assert (In (k, x) (omap fact_params (after_last_failure fact_params df))) as Hq.
    { rewrite Hl. apply in_or_app. right. by left. }
    apply In_omap in Hq as (row & Hrow & Hp). exists row. split; [|done].
    clear -Hrow. revert Hrow. unfold after_last_failure.
    assert (forall acc, (forall r, In r acc -> In r df) -> forall l,
              (forall r, In r l -> In r df) ->
              In row (fold_left (fun acc r => if raises (fact_params r) then []
                                              else acc ++ [r]) l acc) -> In row df) as Hgen.
    { intros acc Hacc l. revert acc Hacc. induction l as [|r l IH]; intros acc Hacc Hl; simpl.
      - apply Hacc.
      - apply IH; [|intros; apply Hl; by right].
        destruct (raises _); [by intros ? []|].
        intros r' [?|[<-|[]]]%in_app_or; [by apply Hacc|apply Hl; by left]. }
    apply Hgen; [by intros ? []|done].
Qed.

End Properties.

(** * Further properties *)

Section Further.
Context {rt : PyRuntime}.
#[local] Existing Instance permissive.

(** ** Calendar attributes *)

Lemma ts_month_range (d : Timestamp) : 1 <= ts_month d <= 12.
Proof.
  unfold ts_month, civil_of_days. cbn [snd].
  set (z := ts_value d / ns_per_day + 719468). clearbody z.
  set (doe := z - z / 146097 * 146097).
  assert (0 <= doe < 146097) as Hdoe.
  { subst doe. pose proof (Z.mod_pos_bound z 146097 ltac:(lia)) as Hb.
    rewrite Z.mod_eq in Hb by lia. lia. }
  clearbody doe.
  set (yoe := (doe - doe / 1460 + doe / 36524 - doe / 146096) / 365).
  assert (0 <= doe - (365 * yoe + yoe / 4 - yoe / 100) <= 365) as Hdoy
    by (subst yoe; Z.div_mod_to_equations; lia).
  set (doy := doe - (365 * yoe + yoe / 4 - yoe / 100)) in *. clearbody doy.
  destruct (Z.ltb_spec ((5 * doy + 2) / 153) 10); Z.div_mod_to_equations; lia.
Qed.

Lemma month_name_lookup (d : Timestamp) :
  month_names !! Z.to_nat (ts_month d - 1) = Some (ts_month_name d).
Proof.
  pose proof (ts_month_range d) as H. unfold ts_month_name.
  assert (exists i, Z.to_nat (ts_month d - 1) = i /\ (i < 12)%nat) as (i & -> & Hi)
    by (eexists; split; [done|lia]).
  do 12 (destruct i as [|i]; [reflexivity|]). lia.
Qed.

(** X1: the calendar columns of a transformed row go together. A row
    without a parsed date has no year, quarter, month or month name; a
    row with a parsed date has all four, the month lies between 1 and
    12 with its English name, and the quarter lies between 1 and 4 and
    is the quarter of that month. *)
Theorem calendar_columns_together (r : RawFilm) :
  let c := transform_row r in
  (ReleaseDate_Parsed c = VNone /\
   Year c = VNone /\ Quarter c = VNone /\ Month c = VNone /\ MonthName c = VNone) \/
  (exists d m q,
     ReleaseDate_Parsed c = VDate d /\
     Year c = VInt (ts_year d) /\ Month c = VInt m /\ Quarter c = VInt q /\
     m = ts_month d /\ 1 <= m <= 12 /\ 1 <= q <= 4 /\ 3 * q - 2 <= m <= 3 * q /\
     exists name, MonthName c = VStr name /\ month_names !! Z.to_nat (m - 1) = Some name).
Proof.
  cbv zeta. unfold transform_row.
  destruct (parse_excel_date_shape (ReleaseDate r)) as [-> | [d ->]]; simpl.
  - left. done.
  - right. pose proof (ts_month_range d) as Hm.
    exists d, (ts_month d), ((ts_month d - 1) / 3 + 1).
    split_and!; try done; try lia.
    + pose proof (Z.div_pos (ts_month d - 1) 3). lia.
    + assert ((ts_month d - 1) / 3 < 4) by (apply Z.div_lt_upper_bound; lia). lia.
    + pose proof (Z.mul_div_le (ts_month d - 1) 3). lia.
    + pose proof (Z.mul_succ_div_gt (ts_month d - 1) 3). lia.
    + exists (ts_month_name d). split; [done|]. apply month_name_lookup.
Qed.

(** ** Excel serial numbers *)

(** X2: the serial numbers a pandas with nanosecond resolution can
    parse. When timedeltas and timestamps are held as int64 counts of
    nanoseconds (as pandas up to 2.x holds them), an integer serial
    number parses to a date exactly when it lies between -81182 and
    106751: the date is then midnight of the day that many days after
    1899-12-30, and outside that range the result is the missing value.
    In every pandas two serial numbers never give the same date. *)
Theorem serial_number_range (n : Z) :
  (forall td, timedelta_fits td = in_ns_range td) ->
  (forall d td, timestamp_fits d td = in_ns_range (ts_value d + td)) ->
  (-81182 <= n <= 106751 ->
   parse_excel_date (VInt n) = VDate (mkTimestamp ((n - 25569) * ns_per_day)) /\
   (n - 25569) * ns_per_day / ns_per_day = n - 25569 /\
   ((n - 25569) * ns_per_day) mod ns_per_day = 0) /\
  (n < -81182 \/ 106751 < n -> parse_excel_date (VInt n) = VNone) /\
  (forall m d, parse_excel_date (VInt n) = VDate d ->
               parse_excel_date (VInt m) = VDate d -> n = m).
Proof.
  intros Htd Hts.
  assert (Hrange : forall x, in_ns_range x = true <->
                             -9223372036854775807 <= x <= 9223372036854775807).
  { intros x. unfold in_ns_range, ns_max. change (2 ^ 63) with 9223372036854775808.
    rewrite andb_true_iff, !Z.leb_le. lia. }
  assert (Hfits : forall k,
    timedelta_fits (k * ns_per_day) && timestamp_fits excel_epoch (k * ns_per_day) = true
    <-> -81182 <= k <= 106751).
  { intros k. rewrite Htd, Hts, andb_true_iff, !Hrange.
    unfold excel_epoch, ns_per_day. cbn [ts_value]. lia. }
  split_and!.
  - intros Hn. apply Hfits in Hn. rewrite parse_excel_date_int, Hn.
    split_and!; [done| |].
    + apply Z.div_mul. unfold ns_per_day. lia.
    + apply Z.mod_mul. unfold ns_per_day. lia.
  - intros Hn. rewrite parse_excel_date_int.
    destruct (_ && _) eqn:E; [|done]. apply Hfits in E. lia.
  - intros m d. rewrite !parse_excel_date_int.
    destruct (_ && _); [|done]. destruct (_ && _); [|done].
    intros [= <-] [= H]. unfold ns_per_day in H. lia.
Qed.

(** ** The film dimension: which rows fail, and what is stored *)

Lemma prefix_length (n : nat) (s : string) :
  String.length (prefix n s) = Nat.min n (String.length s).
Proof.
  unfold prefix. revert s. induction n as [|n IH]; intros [|c s]; simpl; try done.
  by rewrite IH.
Qed.

Lemma prefix_is_prefix (n : nat) (s : string) :
  exists rest, s = (prefix n s ++ rest)%string.
Proof.
  unfold prefix. revert s. induction n as [|n IH]; intros [|c s]; simpl.
  - by exists ""%string.
  - by exists (String c s).
  - by exists ""%string.
  - destruct (IH s) as [rest Hrest]. exists rest.
    change (String c s = String c (substring 0 n s ++ rest)%string). congruence.
Qed.

Lemma prefix_short (n : nat) (s : string) :
  (String.length s <= n)%nat -> prefix n s = s.
Proof.
  unfold prefix. revert s. induction n as [|n IH]; intros [|c s]; simpl; try done.
  - lia.
  - intros H. rewrite IH; [done|lia].
Qed.

(** The certificate cell the film loader reads: [CertificateID] when the
    column is there and the cell is not missing, else [Certificate] under
    the same conditions, else none. *)
Lemma cert_value_choice (row : CleanFilm) :
  let chosen :=
    match CertificateID (raw row) with
    | Some v => if notna v then Some v
                else match Certificate (raw row) with
                     | Some w => if notna w then Some w else None
                     | None => None
                     end
    | None => match Certificate (raw row) with
              | Some w => if notna w then Some w else None
              | None => None
              end
    end in
  cert_value row = match chosen with
                   | Some v => (fun n => Some (str_of_int n)) <$> py_int v
                   | None => Some None
                   end.
Proof.
  cbv zeta. unfold cert_value.
  destruct (CertificateID (raw row)) as [v|], (Certificate (raw row)) as [w|];
    repeat (destruct (notna _)); done.
Qed.

(** X4: what the film loader stores. The title is the first 200
    characters of [str(Title)] and the review the first 500 characters of
    [str(Review)]: a prefix of the text that is as long as the text or
    the bound, whichever is less, so unchanged when short enough; a missing
    review is stored as null; the certificate is the decimal text of the
    integer in [CertificateID] when that cell is present, and of the one
    in [Certificate] otherwise. *)
Theorem film_row_content (row : CleanFilm) (k : Z) (x : FilmRow) :
  film_params row = Some (k, x) ->
  py_int (FilmID (raw row)) = Some k /\
  String.length (fl_Title x) = Nat.min 200 (String.length (py_str (Title (raw row)))) /\
  (exists rest, py_str (Title (raw row)) = (fl_Title x ++ rest)%string) /\
  ((String.length (py_str (Title (raw row))) <= 200)%nat ->
   fl_Title x = py_str (Title (raw row))) /\
  (isna (Review (raw row)) = true -> fl_Review x = None) /\
  (isna (Review (raw row)) = false ->
   exists t, fl_Review x = Some t /\
     String.length t = Nat.min 500 (String.length (py_str (Review (raw row)))) /\
     (exists rest, py_str (Review (raw row)) = (t ++ rest)%string) /\
     ((String.length (py_str (Review (raw row))) <= 500)%nat ->
      t = py_str (Review (raw row)))) /\
  (forall v, CertificateID (raw row) = Some v -> notna v = true ->
     exists n, py_int v = Some n /\ fl_Certificate x = Some (str_of_int n)) /\
  (forall w, (CertificateID (raw row) = None \/
              exists v, CertificateID (raw row) = Some v /\ notna v = false) ->
     Certificate (raw row) = Some w -> notna w = true ->
     exists n, py_int w = Some n /\ fl_Certificate x = Some (str_of_int n)) /\
  ((CertificateID (raw row) = None \/
    exists v, CertificateID (raw row) = Some v /\ notna v = false) ->
   (Certificate (raw row) = None \/
    exists w, Certificate (raw row) = Some w /\ notna w = false) ->
   fl_Certificate x = None).
Proof.
  unfold film_params. intros H.
  destruct (cert_value row) as [c|] eqn:Ec; simpl in H; [|done].
  destruct (py_int (FilmID (raw row))) as [k'|] eqn:Ek; simpl in H; [|done].
  injection H as <- <-. simpl.
  split_and!.
  - done.
  - apply prefix_length.
  - apply prefix_is_prefix.
  - apply prefix_short.
  - unfold review_value, notna. by intros ->.
  - unfold review_value, notna. intros ->. simpl. eexists. split; [done|].
    split_and!; [apply prefix_length|apply prefix_is_prefix|apply prefix_short].
  - intros v Hv Hn. unfold cert_value in Ec. rewrite Hv, Hn in Ec.
    destruct (py_int v) as [n|]; simpl in Ec.
    + exists n. split; [done|]. by destruct (Certificate (raw row)); injection Ec as <-.
    + by destruct (Certificate (raw row)).
  - intros w Hid Hw Hn. unfold cert_value in Ec. rewrite Hw in Ec.
    destruct Hid as [Hid|(v & Hid & Hv)]; rewrite Hid in Ec.
    + rewrite Hn in Ec. destruct (py_int w) as [n|]; simpl in Ec; [|done].
      exists n. split; [done|]. by injection Ec as <-.
    + rewrite Hv, Hn in Ec. destruct (py_int w) as [n|]; simpl in Ec; [|done].
      exists n. split; [done|]. by injection Ec as <-.
  - intros Hid Hc. unfold cert_value in Ec.
    destruct Hid as [Hid|(v & Hid & Hv)], Hc as [Hc|(w & Hc & Hw)];
      rewrite Hid, Hc in Ec; rewrite ?Hv, ?Hw in Ec; by injection Ec as <-.
Qed.


(** ** Counters of the dimension loaders *)

(** X6: the number a dimension loader reports as inserted is the number
    of rows its table has grown by, and a second run of the load stage
    on the same batch reports zero for every dimension. *)
Theorem dimension_insert_counts (df : list CleanFilm) (s : Store) :
  (let st := load_dimension_time df (connect s) in
   (inserted st + size (DimTime s) = size (DimTime (committed (conn st))))%nat) /\
  (let st := load_dimension_film df (connect s) in
   (inserted st + size (DimFilm s) = size (DimFilm (committed (conn st))))%nat) /\
  (forall d id_col display_name,
     let st := load_dimension_generic df (connect s) (dim_table d) id_col display_name in
     (inserted st + size (rows_of (dim_table d) s)
      = size (rows_of (dim_table d) (committed (conn st))))%nat) /\
  (let s' := run_load df s in
   inserted (load_dimension_time df (connect s')) = 0%nat /\
   inserted (load_dimension_film df (connect s')) = 0%nat /\
   inserted (load_dimension_generic df (connect s') DimDirector_t
               (fun r => DirectorID (raw r)) "Director") = 0%nat /\
   inserted (load_dimension_generic df (connect s') DimStudio_t
               (fun r => StudioID (raw r)) "Studio") = 0%nat /\
   inserted (load_dimension_generic df (connect s') DimGenre_t
               (fun r => GenreID (raw r)) "Genre") = 0%nat /\
   inserted (load_dimension_generic df (connect s') DimCountry_t
               (fun r => CountryID (raw r)) "Country") = 0%nat /\
   inserted (load_dimension_generic df (connect s') DimLanguage_t
               (fun r => LanguageID (raw r)) "Language") = 0%nat).
Proof.
  split_and!.
  - cbv zeta. destruct (load_dimension_time_loop df s) as (Hc & _ & Hi).
    rewrite Hc. exact Hi.
  - cbv zeta. destruct (load_dimension_film_loop df s) as (Hc & _ & Hi).
    rewrite Hc. exact Hi.
  - intros d id_col display_name. cbv zeta.
    destruct (load_dimension_generic_loop (dim_table d) id_col display_name df s)
      as (Hc & _ & Hi).
    rewrite Hc. unfold connect. cbn [committed]. rewrite rows_of_with_rows. exact Hi.
  - cbv zeta. rewrite run_load_tables. split_and!.
    + match goal with |- inserted (load_dimension_time df (connect ?s')) = _ =>
        destruct (load_dimension_time_loop df s') as (_ & _ & Hi) end.
      cbn [DimTime] in Hi. rewrite upsert_all_idem in Hi. lia.
    + match goal with |- inserted (load_dimension_film df (connect ?s')) = _ =>
        destruct (load_dimension_film_loop df s') as (_ & _ & Hi) end.
      cbn [DimFilm] in Hi. rewrite upsert_all_idem in Hi. lia.
    + match goal with |- inserted (load_dimension_generic df (connect ?s') ?T ?c ?n) = _ =>
        destruct (load_dimension_generic_loop T c n df s') as (_ & _ & Hi) end.
      cbn [rows_of DimDirector_t DimDirector] in Hi. rewrite upsert_all_idem in Hi. lia.
    + match goal with |- inserted (load_dimension_generic df (connect ?s') ?T ?c ?n) = _ =>
        destruct (load_dimension_generic_loop T c n df s') as (_ & _ & Hi) end.
      cbn [rows_of DimStudio_t DimStudio] in Hi. rewrite upsert_all_idem in Hi. lia.
    + match goal with |- inserted (load_dimension_generic df (connect ?s') ?T ?c ?n) = _ =>
        destruct (load_dimension_generic_loop T c n df s') as (_ & _ & Hi) end.
      cbn [rows_of DimGenre_t DimGenre] in Hi. rewrite upsert_all_idem in Hi. lia.
    + match goal with |- inserted (load_dimension_generic df (connect ?s') ?T ?c ?n) = _ =>
        destruct (load_dimension_generic_loop T c n df s') as (_ & _ & Hi) end.
      cbn [rows_of DimCountry_t DimCountry] in Hi. rewrite upsert_all_idem in Hi. lia.
    + match goal with |- inserted (load_dimension_generic df (connect ?s') ?T ?c ?n) = _ =>
        destruct (load_dimension_generic_loop T c n df s') as (_ & _ & Hi) end.
      cbn [rows_of DimLanguage_t DimLanguage] in Hi. rewrite upsert_all_idem in Hi. lia.
Qed.

(** ** The fact loader: what a failing row costs *)

Lemma after_last_failure_restart {X Y} (f : X -> option Y) (pre post : list X) (bad : X) :
  f bad = None ->
  after_last_failure f (pre ++ bad :: post) = after_last_failure f post.
Proof.
  intros Hbad. unfold after_last_failure. rewrite fold_left_app. simpl. by rewrite Hbad.
Qed.

Lemma failures_app {X Y} (f : X -> option Y) (l1 l2 : list X) :
  failures f (l1 ++ l2) = (failures f l1 + failures f l2)%nat.
Proof. unfold failures. by rewrite List.filter_app, List.length_app. Qed.

Lemma failures_none {X Y} (f : X -> option Y) (l : list X) :
  failures f l = 0%nat <-> existsb (fun r => raises (f r)) l = false.
Proof.
  unfold failures. induction l as [|r l IH]; simpl; [done|].
  destruct (raises (f r)); simpl; [split; [lia|done]|exact IH].
Qed.

(** X7: in the fact loader a failing row undoes every row before it. The
    warehouse after loading a batch is the warehouse after loading only
    the rows that follow its last failing row; a batch whose last row
    fails leaves the warehouse as it was, whatever came before. *)
Theorem fact_failure_erases_earlier_rows (pre post : list CleanFilm) (bad : CleanFilm)
    (s : Store) :
  fact_params bad = None ->
  conn (load_fact_table (pre ++ bad :: post) (connect s))
  = conn (load_fact_table post (connect s)) /\
  errors (load_fact_table (pre ++ bad :: post) (connect s))
  = (failures fact_params pre + 1 + errors (load_fact_table post (connect s)))%nat /\
  committed (conn (load_fact_table (pre ++ [bad]) (connect s))) = s.
Proof.
  intros Hbad.
  destruct (load_fact_table_loop (pre ++ bad :: post) s) as (Hc1 & He1).
  destruct (load_fact_table_loop post s) as (Hc2 & He2).
  destruct (load_fact_table_loop (pre ++ [bad]) s) as (Hc3 & _).
  split_and!.
  - rewrite Hc1, Hc2. by rewrite (after_last_failure_restart _ _ _ _ Hbad).
  - rewrite He1, He2, failures_app. unfold failures at 2. simpl. rewrite Hbad. simpl.
    unfold failures. lia.
  - rewrite Hc3, (after_last_failure_restart _ _ _ _ Hbad). unfold connect.
    cbn [committed after_last_failure fold_left omap list_omap upsert_all].
    apply (with_rows_rows_of (T := FactFilmPerformance_t)).
Qed.

Section FactCounter.
Context {A B : Type} (T : Table A) `{!TableLaws T} `{!Accepting T}
  (params : B -> option (Z * A)).

(** The insert counter of the fact loop never goes down; it bounds the
    growth of the pending table over the state the last rollback went
    back to, and it is that growth when no row has raised. *)
Lemma commit_last_inserted (l : list B) (st : Loader) :
  failed (conn st) = false ->
  let st' := fold_left (commit_last T params) l st in
  let base := if existsb (fun r => raises (params r)) l
              then committed (conn st) else pending (conn st) in
  (inserted st <= inserted st')%nat /\
  (size (rows_of T (pending (conn st'))) + inserted st
   <= inserted st' + size (rows_of T base))%nat /\
  (existsb (fun r => raises (params r)) l = false ->
   (inserted st' + size (rows_of T (pending (conn st)))
    = inserted st + size (rows_of T (pending (conn st'))))%nat).
Proof.
  intros Hf0. induction l as [|r l IH] using rev_ind; cbv zeta.
  - simpl. lia.
  - cbv zeta in IH. destruct IH as (Hm & Hb & He).
    destruct (commit_last_loop T params l st Hf0) as (Hf & Hc & _ & _).
    rewrite fold_left_app, existsb_app. cbn [fold_left existsb].
    set (st0 := fold_left (commit_last T params) l st) in *.
    destruct (params r) as [[k x]|] eqn:E; cbn [raises].
    + destruct (try_insert_done T k x st0 Hf) as (st1 & Ht & Hc1 & Hi & _).
      assert (commit_last T params st0 r = st1) as ->
        by (unfold commit_last; by rewrite E, Ht).
      rewrite !orb_false_r, Hc1. cbn [pending].
      rewrite Hi, rows_of_with_rows.
      pose proof (upsert_size (rows_of T (pending (conn st0))) (k, x)) as Hs.
      cbn [fst snd] in Hs. split_and!; [lia|lia|].
      intros Hno. specialize (He Hno). lia.
    + assert (commit_last T params st0 r = on_error st0) as ->
        by (unfold commit_last; by rewrite E).
      rewrite orb_true_r. unfold on_error, rollback. cbn [conn pending inserted].
      rewrite Hc. split_and!; [lia|lia|done].
Qed.

End FactCounter.

(** X8: the number the fact loader reports as inserted is at least the
    number of fact rows the run has added, and it is exactly that number
    when no row failed. *)
Theorem fact_insert_count (df : list CleanFilm) (s : Store) :
  let st := load_fact_table df (connect s) in
  (size (FactFilmPerformance (committed (conn st)))
   <= size (FactFilmPerformance s) + inserted st)%nat /\
  (errors st = 0%nat ->
   (inserted st + size (FactFilmPerformance s)
    = size (FactFilmPerformance (committed (conn st))))%nat /\
   forall row k x, In row df -> fact_params row = Some (k, x) ->
     is_Some (FactFilmPerformance (committed (conn st)) !! k)).
Proof.
  cbv zeta.
  set (lp := fold_left load_fact_row df (start (connect s))).
  assert (failed (conn lp) = false) as Hf.
  { by destruct (commit_last_loop FactFilmPerformance_t fact_params df
                   (start (connect s))) as [? _]. }
  assert (committed (conn (load_fact_table df (connect s))) = pending (conn lp))
    as Hcm.
  { unfold load_fact_table, then_commit, commit. fold lp. cbn [conn]. by rewrite Hf. }
  assert (inserted (load_fact_table df (connect s)) = inserted lp) as Hin by reflexivity.
  destruct (commit_last_inserted FactFilmPerformance_t fact_params df (start (connect s)))
    as (_ & Hb & He); [done|].
  change (fold_left (commit_last FactFilmPerformance_t fact_params) df (start (connect s)))
    with lp in Hb, He.
  assert (forall b : bool,
            (if b then committed (conn (start (connect s)))
             else pending (conn (start (connect s)))) = s) as Hbase by (by intros []).
  rewrite Hbase in Hb.
  change (pending (conn (start (connect s)))) with s in He.
  change (inserted (start (connect s))) with 0%nat in Hb, He.
  change (rows_of FactFilmPerformance_t) with FactFilmPerformance in Hb, He.
  destruct (load_fact_table_loop df s) as (Hc & Herr).
  rewrite Hcm, Hin, Herr. split; [lia|].
  intros Hno%failures_none. split; [specialize (He Hno); lia|].
  intros row k x Hrow Hp.
  assert (after_last_failure fact_params df = df) as Hall.
  { unfold after_last_failure. rewrite after_last_failure_ok; [done|].
    intros r Hr Hnone.
    assert (existsb (fun r => raises (fact_params r)) df = true) as Hex
      by (apply existsb_exists; exists r; split; [done|by rewrite Hnone]).
    congruence. }
  rewrite <- Hcm, Hc. unfold connect.
  cbn [committed FactFilmPerformance_t with_rows FactFilmPerformance].
  rewrite Hall. apply (upsert_all_key _ _ (k, x)). apply In_omap. eauto.
Qed.

(** ** The fact loader: which rows fail, and what missing cells become *)

Lemma int_if_notna_raises (v : value) : raises (int_if_notna v) = malformed v.
Proof. unfold int_if_notna, malformed. destruct (notna v), (py_int v); done. Qed.

Lemma int_if_notna_value (v : value) (o : option Z) :
  int_if_notna v = Some o -> o = if isna v then None else py_int v.
Proof.
  unfold int_if_notna, notna. destruct (isna v); simpl; [congruence|].
  destruct (py_int v); simpl; congruence.
Qed.

Lemma int_or_zero_raises (v : value) :
  raises (if notna v then py_int v else Some 0) = malformed v.
Proof. unfold malformed. destruct (notna v), (py_int v); done. Qed.

Lemma float_if_notna_raises (v : value) :
  raises (if notna v then Some <$> py_float v else Some None)
  = notna v && raises (py_float v).
Proof. destruct (notna v), (py_float v); done. Qed.

(** The cells on which the parameters of a fact row cannot be built,
    and what the cells become when they can. *)
Lemma fact_params_cells (row : CleanFilm) :
  raises (fact_params row)
  = raises (py_int (FilmID (raw row)))
    || malformed (DirectorID (raw row)) || malformed (StudioID (raw row))
    || malformed (GenreID (raw row)) || malformed (CountryID (raw row))
    || malformed (LanguageID (raw row)) || malformed (RunTimeMinutes (raw row))
    || malformed (OscarNominations (raw row)) || malformed (OscarWins (raw row))
    || (notna (ROI row) && raises (py_float (ROI row))) /\
  (forall k x, fact_params row = Some (k, x) ->
     py_int (FilmID (raw row)) = Some k /\
     fr_DirectorID x = (if isna (DirectorID (raw row)) then None
                        else py_int (DirectorID (raw row))) /\
     fr_StudioID x = (if isna (StudioID (raw row)) then None
                      else py_int (StudioID (raw row))) /\
     fr_GenreID x = (if isna (GenreID (raw row)) then None
                     else py_int (GenreID (raw row))) /\
     fr_CountryID x = (if isna (CountryID (raw row)) then None
                       else py_int (CountryID (raw row))) /\
     fr_LanguageID x = (if isna (LanguageID (raw row)) then None
                        else py_int (LanguageID (raw row))) /\
     Some (fr_OscarNominations x)
     = (if isna (OscarNominations (raw row)) then Some 0
        else py_int (OscarNominations (raw row))) /\
     Some (fr_OscarWins x)
     = (if isna (OscarWins (raw row)) then Some 0
        else py_int (OscarWins (raw row)))) /\
  (forall r, notna (ROI (transform_row r)) && raises (py_float (ROI (transform_row r)))
             = false).
Proof.
  split_and!.
  - rewrite <- !int_if_notna_raises.
    rewrite <- float_if_notna_raises.
    rewrite (int_if_notna_raises (OscarNominations (raw row))).
    rewrite (int_if_notna_raises (OscarWins (raw row))).
    rewrite <- (int_or_zero_raises (OscarNominations (raw row))).
    rewrite <- (int_or_zero_raises (OscarWins (raw row))).
    unfold fact_params.
    destruct (py_int (FilmID (raw row))); simpl; [|done].
    destruct (int_if_notna (DirectorID (raw row))); simpl; [|done].
    destruct (int_if_notna (StudioID (raw row))); simpl; [|done].
    destruct (int_if_notna (GenreID (raw row))); simpl; [|done].
    destruct (int_if_notna (CountryID (raw row))); simpl; [|done].
    destruct (int_if_notna (LanguageID (raw row))); simpl; [|done].
    destruct (int_if_notna (RunTimeMinutes (raw row))); simpl; [|done].
    destruct (if notna (OscarNominations (raw row)) then _ else _); simpl; [|done].
    destruct (if notna (OscarWins (raw row)) then _ else _); simpl; [|done].
    destruct (if notna (ROI row) then _ else _); simpl; done.
  - intros k x. unfold fact_params. intros H.
    destruct (py_int (FilmID (raw row))); simpl in H; [|done].
    destruct (int_if_notna (DirectorID (raw row))) eqn:E1; simpl in H; [|done].
    destruct (int_if_notna (StudioID (raw row))) eqn:E2; simpl in H; [|done].
    destruct (int_if_notna (GenreID (raw row))) eqn:E3; simpl in H; [|done].
    destruct (int_if_notna (CountryID (raw row))) eqn:E4; simpl in H; [|done].
    destruct (int_if_notna (LanguageID (raw row))) eqn:E5; simpl in H; [|done].
    destruct (int_if_notna (RunTimeMinutes (raw row))); simpl in H; [|done].
    destruct (if notna (OscarNominations (raw row)) then _ else _) eqn:E6;
      simpl in H; [|done].
    destruct (if notna (OscarWins (raw row)) then _ else _) eqn:E7; simpl in H; [|done].
    destruct (if notna (ROI row) then _ else _); simpl in H; [|done].
    injection H as <- <-. cbn.
    apply int_if_notna_value in E1, E2, E3, E4, E5.
    unfold notna in E6, E7.
    split_and!; try done.
    + by destruct (isna (OscarNominations (raw row))).
    + by destruct (isna (OscarWins (raw row))).
  - intros r. unfold transform_row.
    destruct (extract_time_components _) as [[[? ?] ?] ?]. cbn [ROI].
    unfold np_where. destruct (col_gt0 _); [|done].
    unfold col_div. cbn [py_float raises]. apply andb_false_r.
Qed.

(** ** Rows without a usable key *)

Lemma all_fail_omap {X Y} (f : X -> option Y) (l : list X) :
  (forall r, In r l -> f r = None) -> omap f l = [].
Proof.
  induction l as [|r l IH]; intros H; [done|]. simpl.
  rewrite (H r) by (by left). apply IH. intros; apply H; by right.
Qed.

Lemma all_fail_failures {X Y} (f : X -> option Y) (l : list X) :
  (forall r, In r l -> f r = None) -> failures f l = List.length l.
Proof.
  unfold failures. induction l as [|r l IH]; intros H; [done|]. simpl.
  rewrite (H r) by (by left). simpl. f_equal. apply IH. intros; apply H; by right.
Qed.

(** The rows after the last failure are rows of the batch, and none of
    them fails. *)
Lemma after_last_failure_In {X Y} (f : X -> option Y) (l : list X) r :
  In r (after_last_failure f l) -> In r l /\ f r <> None.
Proof.
  unfold after_last_failure.
  assert (forall acc,
    In r (fold_left (fun acc r => if raises (f r) then [] else acc ++ [r]) l acc) ->
    In r acc \/ (In r l /\ f r <> None)) as H.
  { induction l as [|h l IH]; intros acc; simpl; [by left|].
    intros [Hr|[Hr ?]]%IH; [|right; split; [by right|done]].
    destruct (f h) eqn:E; simpl in Hr; [|done].
    apply in_app_or in Hr as [Hr|[<-|[]]]; [by left|].
    right. split; [by left|congruence]. }
  intros [[]|?]%H. done.
Qed.

Lemma all_fail_inserted {X B} (T : Table X) (params : B -> option (Z * X))
    (l : list B) (st : Loader) :
  (forall r, In r l -> params r = None) ->
  inserted (fold_left (commit_last T params) l st) = inserted st.
Proof.
  revert st. induction l as [|r l IH]; intros st H; [done|]. simpl.
  rewrite IH by (intros; apply H; by right).
  unfold commit_last. by rewrite (H r) by (by left).
Qed.

(** X10: when no row of the batch has a [FilmID] that [int] accepts (an
    empty batch included), the film and the fact loader count one error
    per row, insert nothing and leave the warehouse as it was. When no
    row has a parsed date the time loader does not iterate at all: it
    counts no error and leaves the warehouse as it was. *)
Theorem rows_without_key (df : list CleanFilm) (s : Store) :
  ((forall r, In r df -> py_int (FilmID (raw r)) = None) ->
   (let st := load_dimension_film df (connect s) in
    conn st = connect s /\ inserted st = 0%nat /\ errors st = List.length df) /\
   (let st := load_fact_table df (connect s) in
    conn st = connect s /\ inserted st = 0%nat /\ errors st = List.length df)) /\
  ((forall r, In r df -> isna (ReleaseDate_Parsed r) = true) ->
   load_dimension_time df (connect s) = start (connect s)).
Proof.
  split.
  - intros Hkey.
    assert (forall r, In r df -> film_params r = None) as Hfilm.
    { intros r Hr. unfold film_params. rewrite (Hkey r Hr). by destruct (cert_value r). }
    assert (forall r, In r df -> fact_params r = None) as Hfact.
    { intros r Hr. unfold fact_params. by rewrite (Hkey r Hr). }
    split; cbv zeta.
    + destruct (load_dimension_film_loop df s) as (Hc & He & Hi).
      rewrite (all_fail_omap _ _ Hfilm) in Hc, Hi. cbn [upsert_all fold_left] in Hc, Hi.
      rewrite Hc, He, (all_fail_failures _ _ Hfilm).
      change (DimFilm s) with (rows_of DimFilm_t s).
      rewrite (with_rows_rows_of (T := DimFilm_t)). split_and!; [done|lia|done].
    + destruct (load_fact_table_loop df s) as (Hc & He).
      assert (omap fact_params (after_last_failure fact_params df) = []) as Hnil.
      { apply all_fail_omap. intros r [Hr _]%after_last_failure_In. by apply Hfact. }
      rewrite Hnil in Hc. cbn [upsert_all fold_left] in Hc.
      rewrite Hc, He, (all_fail_failures _ _ Hfact).
      change (FactFilmPerformance s) with (rows_of FactFilmPerformance_t s).
      rewrite (with_rows_rows_of (T := FactFilmPerformance_t)).
      split_and!; [done| |done].
      unfold load_fact_table, then_commit. cbn [inserted].
      apply (all_fail_inserted FactFilmPerformance_t fact_params df
               (start (connect s)) Hfact).
  - intros Hdate. unfold load_dimension_time.
    assert (time_data df = []) as ->; [|done].
    destruct (time_data df) as [|r l] eqn:E; [done|].
    assert (In r (time_data df)) as [Hn _]%time_data_In by (rewrite E; by left).
    unfold notna in Hn. rewrite Hdate in Hn; [done|].
    assert (In r (time_data df)) as [_ ?]%time_data_In by (rewrite E; by left). done.
Qed.

(** ** References from the fact table *)





(** ** The time dimension of a transformed sheet *)

Lemma time_params_transform (r : RawFilm) (d : Timestamp) :
  parse_excel_date (ReleaseDate r) = VDate d ->
  time_params (transform_row r) =
  (k ← py_int (RunTimeMinutes r);
   Some (k, {| tr_FullDate := VDate d; tr_Year := Some (ts_year d);
               tr_Quarter := Some ((ts_month d - 1) / 3 + 1);
               tr_Month := Some (ts_month d);
               tr_MonthName := VStr (ts_month_name d) |})).
Proof. intros H. unfold time_params, transform_row. rewrite H. reflexivity. Qed.

Lemma raw_transform_row (r : RawFilm) : raw (transform_row r) = r.
Proof. unfold transform_row. by destruct (extract_time_components _) as [[[? ?] ?] ?]. Qed.

Lemma transformed_date (r : RawFilm) :
  notna (ReleaseDate_Parsed (transform_row r)) = true ->
  exists d, parse_excel_date (ReleaseDate r) = VDate d.
Proof.
  unfold transform_row.
  destruct (parse_excel_date_shape (ReleaseDate r)) as [-> | [d ->]]; [done|eauto].
Qed.


(** ** Loading a sheet in two parts *)

Section Batches.
Context {A B : Type} (key : A -> value) (params : A -> option (Z * B)).

(** Keys seen before do not matter once their rows are in the table. *)
Lemma drop_duplicates_from_seen (seenA seenB : list value) (l : list A) (t : gmap Z B) :
  (forall a, In a l -> keyed key params a) ->
  (forall v, existsb (same_cell v) seenB = true -> existsb (same_cell v) seenA = true) ->
  (forall v k, existsb (same_cell v) seenA = true -> existsb (same_cell v) seenB = false ->
     py_int v = Some k -> is_Some (t !! k)) ->
  upsert_all (omap params (drop_duplicates_from key seenA l)) t
  = upsert_all (omap params (drop_duplicates_from key seenB l)) t.
Proof.
  revert seenA seenB t. induction l as [|a l IH]; intros seenA seenB t Hkeyed Hsub Hin;
    simpl; [done|].
  assert (Hl : forall a', In a' l -> keyed key params a') by (intros; apply Hkeyed; by right).
  assert (Hsub' : forall v, existsb (same_cell v) (key a :: seenB) = true ->
                            existsb (same_cell v) (key a :: seenA) = true).
  { intros v. simpl. destruct (same_cell v (key a)); simpl; [done|apply Hsub]. }
  assert (Hin' : forall t' : gmap Z B, (forall k, is_Some (t !! k) -> is_Some (t' !! k)) ->
            forall v k, existsb (same_cell v) (key a :: seenA) = true ->
              existsb (same_cell v) (key a :: seenB) = false ->
              py_int v = Some k -> is_Some (t' !! k)).
  { intros t' Hmono v k. simpl. destruct (same_cell v (key a)); simpl; [done|].
    intros HA HB Hk. apply Hmono. by apply (Hin v k). }
  destruct (existsb (same_cell (key a)) seenA) eqn:EA,
           (existsb (same_cell (key a)) seenB) eqn:EB.
  - apply IH; [done|done|]. by apply Hin'.
  - simpl. destruct (params a) as [[k x]|] eqn:Ep.
    + simpl. rewrite (upsert_present t (k, x)).
      * apply IH; [done|done|]. by apply Hin'.
      * simpl. apply (Hin (key a) k EA EB).
        apply (proj1 (Hkeyed a (or_introl eq_refl)) k x Ep).
    + apply IH; [done|done|]. by apply Hin'.
  - rewrite (Hsub _ EB) in EA. done.
  - simpl. destruct (params a) as [[k x]|] eqn:Ep.
    + simpl. apply IH; [done|done|]. apply Hin'.
      intros k' [y Hy]. exists y. by apply upsert_lookup_old.
    + apply IH; [done|done|]. by apply Hin'.
Qed.

Lemma drop_duplicates_batches (l1 l2 : list A) (t : gmap Z B) :
  (forall a, In a (l1 ++ l2) -> keyed key params a) ->
  upsert_all (omap params (drop_duplicates key (l1 ++ l2))) t
  = upsert_all (omap params (drop_duplicates key l2))
      (upsert_all (omap params (drop_duplicates key l1)) t).
Proof.
  intros Hkeyed. unfold drop_duplicates.
  rewrite drop_duplicates_from_app, omap_app, upsert_all_app.
  apply drop_duplicates_from_seen.
  - intros a Ha. apply Hkeyed, in_or_app. by right.
  - done.
  - intros v k Hv _ Hk. rewrite app_nil_r in Hv.
    apply existsb_exists in Hv as (w & Hw & Hs).
    apply in_rev, in_map_iff in Hw as (a1 & <- & Ha1).
    apply same_cell_py_int in Hs.
    destruct (drop_duplicates_covers key l1 a1 Ha1) as (y & Hy & Hyk).
    assert (keyed key params y) as [Hy1 Hy2].
    { apply Hkeyed, in_or_app. left. by eapply drop_duplicates_from_In. }
    destruct (params y) as [[k' x]|] eqn:Ep.
    + assert (k' = k) as -> by (specialize (Hy1 k' x eq_refl); congruence).
      apply (upsert_all_key _ _ (k, x)). apply In_omap. eauto.
    + specialize (Hy2 eq_refl). congruence.
Qed.

End Batches.

Lemma keyed_generic (display_name : string) (v : value) :
  keyed (fun v => v) (generic_params display_name) v.
Proof.
  unfold keyed, generic_params. destruct (py_int v); simpl; [|done].
  split; [|done]. by intros k x [= -> _].
Qed.

Lemma keyed_time (r : RawFilm) :
  notna (ReleaseDate_Parsed (transform_row r)) = true ->
  keyed (fun row => RunTimeMinutes (raw row)) time_params (transform_row r).
Proof.
  intros [d Hd]%transformed_date. unfold keyed.
  rewrite (time_params_transform r d Hd), raw_transform_row.
  destruct (py_int (RunTimeMinutes r)); simpl; [|done].
  split; [|done]. by intros k x [= -> _].
Qed.

Lemma generic_batches (display_name : string) (id_col : CleanFilm -> value)
    (df1 df2 : list CleanFilm) (t : gmap Z string) :
  upsert_all (omap (generic_params display_name) (unique_values id_col (df1 ++ df2))) t
  = upsert_all (omap (generic_params display_name) (unique_values id_col df2))
      (upsert_all (omap (generic_params display_name) (unique_values id_col df1)) t).
Proof.
  unfold unique_values. rewrite map_app, List.filter_app.
  apply drop_duplicates_batches. intros; apply keyed_generic.
Qed.

Lemma after_last_failure_app {X Y} (f : X -> option Y) (l1 l2 : list X) :
  after_last_failure f (l1 ++ l2)
  = if existsb (fun r => raises (f r)) l2 then after_last_failure f l2
    else after_last_failure f l1 ++ l2.
Proof.
  assert (Hsnoc : forall l r, after_last_failure f (l ++ [r])
            = if raises (f r) then [] else after_last_failure f l ++ [r]).
  { intros l r. unfold after_last_failure. by rewrite fold_left_app. }
  induction l2 as [|r l2 IH] using rev_ind; simpl.
  - by rewrite !app_nil_r.
  - rewrite app_assoc, !Hsnoc, existsb_app. simpl. destruct (f r); simpl.
    + rewrite orb_false_r, IH. destruct (existsb _ l2); [done|by rewrite app_assoc].
    + by rewrite orb_true_r.
Qed.

Lemma upsert_all_mono {X} (l : list (Z * X)) (t t' : gmap Z X) k :
  (forall k, is_Some (t !! k) -> is_Some (t' !! k)) ->
  is_Some (upsert_all l t !! k) -> is_Some (upsert_all l t' !! k).
Proof.
  intros Hmono [x [Hx|(_ & l1 & l2 & -> & _)]%upsert_all_lookup_new].
  - destruct (Hmono k) as [y Hy]; [eauto|]. exists y. by apply upsert_all_lookup_old.
  - apply (upsert_all_key _ _ (k, x)). apply in_or_app. right. by left.
Qed.

(** X13: loading a sheet in two parts. Transforming and loading the first
    part and then the second leaves every dimension table exactly as
    transforming and loading the whole sheet at once does. The fact table
    has at least the keys it has after the single load, and the two
    warehouses are equal when no fact row of the second part fails. *)
Theorem two_part_load (sheet1 sheet2 : list RawFilm) (s : Store) :
  let whole := run_load (transform_data (sheet1 ++ sheet2)) s in
  let parts := run_load (transform_data sheet2) (run_load (transform_data sheet1) s) in
  DimTime whole = DimTime parts /\ DimFilm whole = DimFilm parts /\
  DimDirector whole = DimDirector parts /\ DimStudio whole = DimStudio parts /\
  DimGenre whole = DimGenre parts /\ DimCountry whole = DimCountry parts /\
  DimLanguage whole = DimLanguage parts /\
  (forall k, is_Some (FactFilmPerformance whole !! k) ->
             is_Some (FactFilmPerformance parts !! k)) /\
  (failures fact_params (transform_data sheet2) = 0%nat -> whole = parts).
Proof.
  cbv zeta. unfold transform_data. rewrite map_app.
  fold (transform_data sheet1) (transform_data sheet2).
  set (df1 := transform_data sheet1). set (df2 := transform_data sheet2).
  rewrite (run_load_tables (df1 ++ df2) s), (run_load_tables df2 (run_load df1 s)),
    (run_load_tables df1 s).
  cbn [DimTime DimFilm DimDirector DimStudio DimGenre DimCountry DimLanguage
       FactFilmPerformance].
  assert (Htime :
    upsert_all (omap time_params (time_data (df1 ++ df2))) (DimTime s)
    = upsert_all (omap time_params (time_data df2))
        (upsert_all (omap time_params (time_data df1)) (DimTime s))).
  { unfold time_data. rewrite List.filter_app. apply drop_duplicates_batches.
    intros row Hrow.
    assert (notna (ReleaseDate_Parsed row) = true /\ In row (df1 ++ df2)) as [Hn Hin].
    { apply in_app_or in Hrow as [Hrow|Hrow]; apply filter_In in Hrow as [? ?];
        (split; [done|]); apply in_or_app; [by left|by right]. }
    unfold df1, df2, transform_data in Hin. rewrite <- map_app in Hin.
    apply in_map_iff in Hin as (r & <- & _). by apply keyed_time. }
  assert (Hfilm :
    upsert_all (omap film_params (df1 ++ df2)) (DimFilm s)
    = upsert_all (omap film_params df2) (upsert_all (omap film_params df1) (DimFilm s)))
    by (by rewrite omap_app, upsert_all_app).
  rewrite Htime, Hfilm, !generic_batches.
  split_and!; try reflexivity.
  - rewrite after_last_failure_app.
    destruct (existsb _ df2) eqn:Hnone.
    + intros k. apply upsert_all_mono.
      intros k' [x Hx]. exists x. by apply upsert_all_lookup_old.
    + pose proof (after_last_failure_app fact_params [] df2) as Hall.
      rewrite Hnone in Hall. simpl in Hall.
      by rewrite omap_app, upsert_all_app, Hall.
  - intros Hnone%failures_none. rewrite after_last_failure_app, Hnone.
    rewrite omap_app, upsert_all_app.
    pose proof (after_last_failure_app fact_params [] df2) as Hall.
    rewrite Hnone in Hall. simpl in Hall. by rewrite Hall.
Qed.

(** ** What a loader leaves alone *)

(** X14: each loader writes one table. Whatever rows fail and are rolled
    back, the warehouse a loader leaves is the warehouse it found with
    that loader's own table replaced, and nothing is left pending: the
    time loader changes [DimTime] only, the film loader [DimFilm] only,
    the generic loader the table it is given, and the fact loader
    [FactFilmPerformance] only. *)
Theorem loaders_write_one_table (df : list CleanFilm) (s : Store) :
  (let c := conn (load_dimension_time df (connect s)) in
   committed c = with_rows DimTime_t (DimTime (committed c)) s /\
   pending c = committed c) /\
  (let c := conn (load_dimension_film df (connect s)) in
   committed c = with_rows DimFilm_t (DimFilm (committed c)) s /\
   pending c = committed c) /\
  (forall d id_col display_name,
     let c := conn (load_dimension_generic df (connect s) (dim_table d) id_col
                      display_name) in
     committed c = with_rows (dim_table d) (rows_of (dim_table d) (committed c)) s /\
     pending c = committed c) /\
  (let c := conn (load_fact_table df (connect s)) in
   committed c
   = with_rows FactFilmPerformance_t (FactFilmPerformance (committed c)) s /\
   pending c = committed c).
Proof.
  split_and!; cbv zeta.
  - rewrite (proj1 (load_dimension_time_loop df s)). cbn [connect committed pending].
    change (DimTime (with_rows DimTime_t ?t s)) with (rows_of DimTime_t (with_rows DimTime_t t s)).
    by rewrite rows_of_with_rows.
  - rewrite (proj1 (load_dimension_film_loop df s)). cbn [connect committed pending].
    change (DimFilm (with_rows DimFilm_t ?t s)) with (rows_of DimFilm_t (with_rows DimFilm_t t s)).
    by rewrite rows_of_with_rows.
  - intros d id_col display_name.
    rewrite (proj1 (load_dimension_generic_loop (dim_table d) id_col display_name df s)).
    cbn [connect committed pending]. by rewrite rows_of_with_rows.
  - rewrite (proj1 (load_fact_table_loop df s)). cbn [connect committed pending].
    change (FactFilmPerformance (with_rows FactFilmPerformance_t ?t s))
      with (rows_of FactFilmPerformance_t (with_rows FactFilmPerformance_t t s)).
    by rewrite rows_of_with_rows.
Qed.

(** ** Placeholder names *)

Lemma str_of_int_inj (a b : Z) : str_of_int a = str_of_int b -> a = b.
Proof.
  unfold str_of_int. intros H. apply DecimalZ.to_int_inj.
  destruct (to_int_proper a) as [Ha1 Ha2], (to_int_proper b) as [Hb1 Hb2].
  pose proof (NilZero.isi _ Ha1 Ha2) as Ea. pose proof (NilZero.isi _ Hb1 Hb2) as Eb.
  rewrite H in Ea. congruence.
Qed.

Lemma append_inj (p a b : string) : (p ++ a)%string = (p ++ b)%string -> a = b.
Proof.
  induction p as [|c p IH]; [done|].
  change ((String c (p ++ a))%string = (String c (p ++ b))%string -> a = b).
  intros [= H]. auto.
Qed.

Lemma name_value_inj (display_name : string) (a b : Z) :
  name_value display_name a = name_value display_name b -> a = b.
Proof. unfold name_value. by intros H%append_inj%append_inj%str_of_int_inj. Qed.

(** X15: placeholder names tell the IDs apart. Two rows that one run of
    the generic loader has added to a dimension table under different IDs
    carry different names. *)
Theorem placeholder_names_differ (d : dimension) (id_col : CleanFilm -> value)
    (display_name : string) (df : list CleanFilm) (s : Store) (k1 k2 : Z) (x1 x2 : string) :
  let s' := committed (conn (load_dimension_generic df (connect s) (dim_table d) id_col
                               display_name)) in
  rows_of (dim_table d) s !! k1 = None -> rows_of (dim_table d) s !! k2 = None ->
  rows_of (dim_table d) s' !! k1 = Some x1 -> rows_of (dim_table d) s' !! k2 = Some x2 ->
  k1 <> k2 -> x1 <> x2.
Proof.
  cbv zeta.
  rewrite (proj1 (load_dimension_generic_loop (dim_table d) id_col display_name df s)).
  cbn [connect committed]. rewrite rows_of_with_rows.
  assert (Hname : forall k x, rows_of (dim_table d) s !! k = None ->
            upsert_all (omap (generic_params display_name) (unique_values id_col df))
              (rows_of (dim_table d) s) !! k = Some x -> x = name_value display_name k).
  { intros k x Hk [Hx|(_ & l1 & l2 & Hl & _)]%upsert_all_lookup_new; [congruence|].
    apply (generic_params_pairs display_name (unique_values id_col df) k x).
    rewrite Hl. apply in_or_app. right. by left. }
  intros H1 H2 ->%Hname ->%Hname Hne Heq; [|done|done].
  by apply Hne, (name_value_inj display_name).
Qed.

End Further.

(** * Stores that reject rows *)

Section Rejections.
Context {rt : PyRuntime} {db : Schema}.

Lemma settled_connect (c : Connection) : settled c <-> c = connect (committed c).
Proof.
  destruct c as [s p f]. unfold settled, connect. cbn [committed pending failed]. split.
  - by intros [-> ->].
  - by intros [= -> ->].
Qed.

(** ** The two loop shapes on any table *)

Section AnyTable.
Context {A B : Type} (T : Table A) `{!TableLaws T} (params : B -> option (Z * A)).

(** One pass of a dimension loop on a settled connection: a row that
    raises is counted and leaves the connection as it was, any other row
    is inserted or skipped and committed. *)
Lemma commit_each_step (st : Loader) (row : B) :
  settled (conn st) ->
  let s := committed (conn st) in
  commit_each T params st row
  = if row_raises T params s row
    then {| conn := conn st; inserted := inserted st; errors := (errors st + 1)%nat |}
    else match params row with
         | Some (k, x) =>
             {| conn := connect (with_rows T (upsert (rows_of T s) (k, x)) s);
                inserted := (inserted st + snd (insert_or_skip k x (rows_of T s)))%nat;
                errors := errors st |}
         | None => st
         end.
Proof.
  intros Hs%settled_connect. destruct st as [c i e]. cbn [conn inserted errors] in *.
  cbv zeta. rewrite Hs. cbn [connect committed]. set (s := committed c).
  unfold commit_each, row_raises. destruct (params row) as [[k x]|]; [|done].
  unfold try_insert, execute_insert, upsert, connect.
  cbn [conn failed pending committed inserted errors fst snd].
  destruct (admits T k x s); cbn [negb]; [|done].
  destruct (insert_or_skip k x (rows_of T s)) as [t n]. done.
Qed.

(** A dimension loop on a settled connection leaves it settled, changes
    its own table only and only by adding rows, and counts at least the
    rows whose parameters cannot be built. *)
Lemma commit_each_fold (l : list B) (st : Loader) :
  settled (conn st) ->
  let st' := fold_left (commit_each T params) l st in
  settled (conn st') /\
  (exists t', committed (conn st') = with_rows T t' (committed (conn st)) /\
     forall k x, rows_of T (committed (conn st)) !! k = Some x -> t' !! k = Some x) /\
  (errors st + failures params l <= errors st' <= errors st + List.length l)%nat.
Proof.
  revert st. induction l as [|r l IH]; intros st Hs; cbv zeta.
  - simpl. split_and!; [done| |unfold failures; simpl; lia|lia].
    exists (rows_of T (committed (conn st))). by rewrite with_rows_rows_of.
  - cbn [fold_left]. rewrite (commit_each_step st r Hs). cbv zeta.
    assert (failures params (r :: l)
            = ((if raises (params r) then 1 else 0) + failures params l)%nat) as ->
      by (unfold failures; simpl; by destruct (raises (params r))).
    unfold row_raises. destruct (params r) as [[k x]|] eqn:E; cbn [raises].
    + destruct (negb (admits T k x (committed (conn st)))).
      * destruct (IH {| conn := conn st; inserted := inserted st;
                        errors := (errors st + 1)%nat |} Hs) as (H1 & H2 & H3).
        cbn [conn errors] in *. split_and!; [done|done|lia|simpl; lia].
      * match goal with |- context [fold_left _ l ?s0] =>
          destruct (IH s0) as (H1 & (t' & H2 & H2') & H3) end.
        { by apply settled_connect. }
        cbn [conn errors connect committed] in *.
        split_and!; [done| |lia|simpl; lia].
        exists t'. rewrite H2, with_rows_with_rows. split; [done|].
        intros k' x' Hk'. apply H2'. rewrite rows_of_with_rows.
        by apply upsert_lookup_old.
    + destruct (IH {| conn := conn st; inserted := inserted st;
                      errors := (errors st + 1)%nat |} Hs) as (H1 & H2 & H3).
      cbn [conn errors] in *. split_and!; [done|done|lia|simpl; lia].
Qed.






(** One pass of the fact loop in a transaction that has not failed. *)
Lemma commit_last_step (st : Loader) (row : B) :
  failed (conn st) = false ->
  let p := pending (conn st) in
  commit_last T params st row
  = if row_raises T params p row
    then {| conn := rollback (conn st); inserted := inserted st;
            errors := (errors st + 1)%nat |}
    else match params row with
         | Some (k, x) =>
             {| conn := {| committed := committed (conn st);
                           pending := with_rows T (upsert (rows_of T p) (k, x)) p;
                           failed := false |};
                inserted := (inserted st + snd (insert_or_skip k x (rows_of T p)))%nat;
                errors := errors st |}
         | None => st
         end.
Proof.
  intros Hf. destruct st as [[s p f] i e]. cbn [conn inserted errors failed pending] in *.
  subst f. cbv zeta.
  unfold commit_last, row_raises. destruct (params row) as [[k x]|]; [|done].
  unfold try_insert, execute_insert, upsert. cbn [conn failed pending committed fst snd].
  destruct (admits T k x p); cbn [negb]; [|done].
  destruct (insert_or_skip k x (rows_of T p)) as [t n]. done.
Qed.

(** The fact loop never leaves a failed transaction behind and never
    commits; what is pending differs from what is stored in its own
    table only. *)
Lemma commit_last_fold (l : list B) (st : Loader) :
  failed (conn st) = false ->
  (exists t, pending (conn st) = with_rows T t (committed (conn st))) ->
  let st' := fold_left (commit_last T params) l st in
  failed (conn st') = false /\
  committed (conn st') = committed (conn st) /\
  (exists t', pending (conn st') = with_rows T t' (committed (conn st))) /\
  (errors st + failures params l <= errors st' <= errors st + List.length l)%nat.
Proof.
  revert st. induction l as [|r l IH]; intros st Hf Hp; cbv zeta.
  - simpl. split_and!; [done|done|done|unfold failures; simpl; lia|lia].
  - cbn [fold_left]. rewrite (commit_last_step st r Hf). cbv zeta.
    assert (failures params (r :: l)
            = ((if raises (params r) then 1 else 0) + failures params l)%nat) as ->
      by (unfold failures; simpl; by destruct (raises (params r))).
    assert (Hroll : forall i e,
      let st0 := {| conn := rollback (conn st); inserted := i; errors := e |} in
      failed (conn st0) = false /\
      exists t, pending (conn st0) = with_rows T t (committed (conn st0))).
    { intros i e. cbn. split; [done|]. exists (rows_of T (committed (conn st))).
      by rewrite with_rows_rows_of. }
    unfold row_raises. destruct (params r) as [[k x]|] eqn:E; cbn [raises].
    + destruct (negb (admits T k x (pending (conn st)))).
      * destruct (Hroll (inserted st) (errors st + 1)%nat) as [Hf0 Hp0].
        destruct (IH _ Hf0 Hp0) as (H1 & H2 & H3 & H4).
        cbn [conn errors rollback committed] in *.
        split_and!; [done|done|done|lia|simpl; lia].
      * destruct Hp as [t Hp].
        match goal with |- context [fold_left _ l ?s0] =>
          destruct (IH s0) as (H1 & H2 & H3 & H4) end.
        { done. }
        { cbn [conn pending committed]. rewrite Hp, with_rows_with_rows. eauto. }
        cbn [conn errors committed] in *.
        split_and!; [done|done|done|lia|simpl; lia].
    + destruct (Hroll (inserted st) (errors st + 1)%nat) as [Hf0 Hp0].
      destruct (IH _ Hf0 Hp0) as (H1 & H2 & H3 & H4).
      cbn [conn errors rollback committed] in *.
      split_and!; [done|done|done|lia|simpl; lia].
Qed.


End AnyTable.

(** ** The loaders on any store *)







(** ** Which rows raise in the film and in the fact loader *)

(** The cells on which the parameters of a film row cannot be built. *)
Lemma film_params_cells (row : CleanFilm) :
  film_params row = None <->
  py_int (FilmID (raw row)) = None \/
  (exists v, CertificateID (raw row) = Some v /\ malformed v = true) \/
  (exists w, (CertificateID (raw row) = None \/
              exists v, CertificateID (raw row) = Some v /\ isna v = true) /\
             Certificate (raw row) = Some w /\ malformed w = true).
Proof.
  assert (Hcert : cert_value row = None <->
    (exists v, CertificateID (raw row) = Some v /\ malformed v = true) \/
    (exists w, (CertificateID (raw row) = None \/
                exists v, CertificateID (raw row) = Some v /\ isna v = true) /\
               Certificate (raw row) = Some w /\ malformed w = true)).
  { unfold cert_value, malformed, notna.
    destruct (CertificateID (raw row)) as [v|], (Certificate (raw row)) as [w|];
      try destruct (isna v) eqn:Ev; try destruct (py_int v) eqn:Pv;
      try destruct (isna w) eqn:Ew; try destruct (py_int w) eqn:Pw; simpl;
      (split;
       [intros H; try discriminate H;
        first [ left; eexists; split; [reflexivity|]; by rewrite ?Ev, ?Pv
              | right; eexists; split;
                [first [by left|right; eexists; split; [reflexivity|done]]|];
                split; [reflexivity|]; by rewrite ?Ew, ?Pw ]
       |intros [(v' & Hv & H)|(w' & Hc & Hw & H)]; simplify_eq;
        try (destruct Hc as [Hc|(v'' & Hc & Hi)]; simplify_eq);
        rewrite ?Ev, ?Pv, ?Ew, ?Pw in *; simpl in *; congruence]). }
  unfold film_params. rewrite <- Hcert.
  destruct (cert_value row), (py_int (FilmID (raw row))); simpl;
    split; try done; try (by intros [?|?]); eauto.
Qed.

(** One pass of a loop body counts an error exactly when the row raises
    on what the open transaction holds. *)
Lemma commit_each_counts {A B} (T : Table A) (params : B -> option (Z * A))
    (st : Loader) (row : B) :
  failed (conn st) = false ->
  let st' := commit_each T params st row in
  errors st'
  = (errors st + if row_raises T params (pending (conn st)) row then 1 else 0)%nat /\
  (row_raises T params (pending (conn st)) row = true ->
   conn st' = rollback (conn st) /\ inserted st' = inserted st).
Proof.
  intros Hf. cbv zeta. unfold commit_each, row_raises.
  destruct (params row) as [[k x]|]; [|simpl; split; [lia|done]].
  unfold try_insert, execute_insert. rewrite Hf.
  destruct (admits T k x (pending (conn st))); cbn [negb].
  - destruct (insert_or_skip k x _) as [t n]. simpl. split; [lia|done].
  - simpl. split; [lia|done].
Qed.

Lemma commit_last_counts {A B} (T : Table A) (params : B -> option (Z * A))
    (st : Loader) (row : B) :
  failed (conn st) = false ->
  let st' := commit_last T params st row in
  errors st'
  = (errors st + if row_raises T params (pending (conn st)) row then 1 else 0)%nat /\
  (row_raises T params (pending (conn st)) row = true ->
   conn st' = rollback (conn st) /\ inserted st' = inserted st).
Proof.
  intros Hf. cbv zeta. unfold commit_last, row_raises.
  destruct (params row) as [[k x]|]; [|simpl; split; [lia|done]].
  unfold try_insert, execute_insert. rewrite Hf.
  destruct (admits T k x (pending (conn st))); cbn [negb].
  - destruct (insert_or_skip k x _) as [t n]. simpl. split; [lia|done].
  - simpl. split; [lia|done].
Qed.

(** X3: which rows the film loader counts as errors. In a pass of its
    loop a row is counted exactly when it raises: [int] rejects its
    [FilmID], or [int] rejects the certificate cell that is read
    ([CertificateID] when that cell is there, [Certificate] otherwise),
    or the server rejects the row; the transaction is then rolled back
    and nothing is counted as inserted. The title and the review never
    make a row raise: a missing title is sent as the text [nan]. Over a
    batch the loader counts at least the rows whose cells are rejected
    and at most all rows, and exactly the former when the server accepts
    every film row. *)
Theorem film_row_failure (st : Loader) (row : CleanFilm) :
  failed (conn st) = false ->
  let st' := load_film_row st row in
  let raised := row_raises DimFilm_t film_params (pending (conn st)) row in
  (errors st' = (errors st + if raised then 1 else 0)%nat) /\
  (raised = true -> conn st' = rollback (conn st) /\ inserted st' = inserted st) /\
  (raised = true <->
   py_int (FilmID (raw row)) = None \/
   (exists v, CertificateID (raw row) = Some v /\ malformed v = true) \/
   (exists w, (CertificateID (raw row) = None \/
               exists v, CertificateID (raw row) = Some v /\ isna v = true) /\
              Certificate (raw row) = Some w /\ malformed w = true) \/
   (exists k x, film_params row = Some (k, x) /\
                film_ok k x (pending (conn st)) = false)) /\
  (forall k x, film_params row = Some (k, x) -> Title (raw row) = VNone ->
     fl_Title x = "nan"%string) /\
  (forall df c, settled c ->
     (failures film_params df <= errors (load_dimension_film df c) <= List.length df)%nat /\
     (Accepting DimFilm_t -> errors (load_dimension_film df c) = failures film_params df)).
Proof.
  intros Hf. cbv zeta.
  destruct (commit_each_counts DimFilm_t film_params st row Hf) as [He Hc].
  split_and!.
  - exact He.
  - exact Hc.
  - unfold row_raises. pose proof (film_params_cells row) as Hcells.
    destruct (film_params row) as [[k x]|] eqn:E; cbn [admits DimFilm_t].
    + rewrite negb_true_iff. split.
      * intros H. right. right. right. eauto.
      * intros [H|[H|[H|(k' & x' & [= <- <-] & H)]]]; [..|done];
          (assert (Some (k, x) = None) as Hn by (apply Hcells; auto); discriminate Hn).
    + split; [intros _|done]. destruct (proj1 Hcells eq_refl) as [?|[?|?]]; auto.
  - intros k x. unfold film_params.
    destruct (cert_value row); simpl; [|done].
    destruct (py_int (FilmID (raw row))); simpl; [|done].
    intros [= <- <-] ->. done.
  - intros df c Hs. split.
    + destruct (commit_each_fold DimFilm_t film_params df (start c) Hs) as (_ & _ & H).
      exact H.
    + intros Hacc. destruct Hs as [Hf0 Hp0].
      destruct (commit_each_loop DimFilm_t film_params df (start c) Hf0 Hp0)
        as (_ & He' & _).
      exact He'.
Qed.

(** X9: which rows the fact loader counts as errors. In a pass of its
    loop a row is counted exactly when it raises, and the whole open
    transaction is then rolled back. Its parameters cannot be built
    exactly when [int] rejects its [FilmID], or one of its dimension IDs,
    its running time or its Oscar counts is present but malformed, or
    its ROI is present but no number; a missing cell never raises: a
    missing dimension ID or running time is sent as null and a missing
    Oscar count as 0, and a row that [transform_data] produced never
    raises on its ROI. Parameters that can be built raise when the
    server rejects them. Over a batch the loader counts at least the rows
    whose cells are rejected and at most all rows, and exactly the former
    when the server accepts every fact row. *)
Theorem fact_row_failure (st : Loader) (row : CleanFilm) :
  failed (conn st) = false ->
  let st' := load_fact_row st row in
  let raised := row_raises FactFilmPerformance_t fact_params (pending (conn st)) row in
  (errors st' = (errors st + if raised then 1 else 0)%nat) /\
  (raised = true -> conn st' = rollback (conn st) /\ inserted st' = inserted st) /\
  (raised
   = match fact_params row with
     | Some (k, x) => negb (fact_ok k x (pending (conn st)))
     | None => true
     end) /\
  (raises (fact_params row)
   = raises (py_int (FilmID (raw row)))
     || malformed (DirectorID (raw row)) || malformed (StudioID (raw row))
     || malformed (GenreID (raw row)) || malformed (CountryID (raw row))
     || malformed (LanguageID (raw row)) || malformed (RunTimeMinutes (raw row))
     || malformed (OscarNominations (raw row)) || malformed (OscarWins (raw row))
     || (notna (ROI row) && raises (py_float (ROI row)))) /\
  (forall k x, fact_params row = Some (k, x) ->
     py_int (FilmID (raw row)) = Some k /\
     fr_DirectorID x = (if isna (DirectorID (raw row)) then None
                        else py_int (DirectorID (raw row))) /\
     fr_StudioID x = (if isna (StudioID (raw row)) then None
                      else py_int (StudioID (raw row))) /\
     fr_GenreID x = (if isna (GenreID (raw row)) then None
                     else py_int (GenreID (raw row))) /\
     fr_CountryID x = (if isna (CountryID (raw row)) then None
                       else py_int (CountryID (raw row))) /\
     fr_LanguageID x = (if isna (LanguageID (raw row)) then None
                        else py_int (LanguageID (raw row))) /\
     Some (fr_OscarNominations x)
     = (if isna (OscarNominations (raw row)) then Some 0
        else py_int (OscarNominations (raw row))) /\
     Some (fr_OscarWins x)
     = (if isna (OscarWins (raw row)) then Some 0
        else py_int (OscarWins (raw row)))) /\
  (forall r, notna (ROI (transform_row r)) && raises (py_float (ROI (transform_row r)))
             = false) /\
  (forall df c, settled c ->
     (failures fact_params df <= errors (load_fact_table df c) <= List.length df)%nat /\
     (Accepting FactFilmPerformance_t ->
      errors (load_fact_table df c) = failures fact_params df)).
Proof.
  intros Hf. cbv zeta.
  destruct (commit_last_counts FactFilmPerformance_t fact_params st row Hf) as [He Hc].
  destruct (fact_params_cells row) as (H1 & H2 & H3).
  split_and!; [exact He|exact Hc|done|exact H1|exact H2|exact H3|].
  intros df c [Hf0 Hp0]. split.
  - destruct (commit_last_fold FactFilmPerformance_t fact_params df (start c))
      as (_ & _ & _ & H); [done| |exact H].
    cbn [start conn]. rewrite Hp0. exists (FactFilmPerformance (committed c)).
    by rewrite (with_rows_rows_of (T := FactFilmPerformance_t)).
  - intros Hacc.
    destruct (commit_last_loop FactFilmPerformance_t fact_params df (start c) Hf0)
      as (_ & _ & _ & He').
    exact He'.
Qed.

End Rejections.

(** * Worked examples *)

#[local] Existing Instance literal_runtime.
#[local] Existing Instance permissive.

(** The runtime of the examples builds the timedelta of a whole number
    of days, and of nothing else. *)
#[local] Instance literal_days : DaysAsTimedelta.
Proof.
  split.
  - intros x n Hn. cbn [timedelta_of_float_days literal_runtime].
    unfold whole_days, timedelta_of_int_days. rewrite Hn. reflexivity.
  - intros x lo td Hlo. cbn [timedelta_of_float_days literal_runtime].
    unfold whole_days. destruct (integral x) as [n|] eqn:Hn; [|done].
    cbn [mbind option_bind]. apply integral_floor in Hn.
    assert (lo = n) as -> by congruence.
    destruct (in_ns_range _); [|done]. intros [= <-]. unfold ns_per_day. lia.
Qed.

(** The two worked rows of the specification: a zero budget is cleaned
    away and takes profit and ROI with it, also in the fact row; a
    budget of 1000000 against a box office of 3000000 gives a profit of
    2000000 and an ROI of 2. *)
Example zero_budget_row :
  let c := transform_row film_zero_budget in
  BudgetDollars_Clean c = VNone /\ isna (ProfitDollars c) = true /\ ROI c = VNone /\
  (fun x => (isna (fr_BudgetDollars x.2), isna (fr_ProfitDollars x.2), fr_ROI x.2))
    <$> fact_params c = Some (true, true, None).
Proof. vm_compute. done. Qed.

Example profitable_row :
  let c := transform_row film_profitable in
  ProfitDollars c = VFloat 2000000 /\ ROI c = VFloat 2.
Proof. vm_compute. done. Qed.

(** An Excel serial number: 45000 is 2023-03-15. *)
Example serial_date :
  parse_excel_date (VInt 45000) = VDate day_45000 /\
  extract_time_components (VDate day_45000) = (VInt 2023, VInt 1, VInt 3, VStr "March").
Proof. vm_compute. done. Qed.

(** C3, the counterexample: a negative cell is cleaned to a negative
    float. (A text cell spelling zero is cleaned to 0.0.) *)
Lemma clean_numeric_keeps_sign :
  clean_numeric (VInt (-5)) = VFloat (-5) /\
  ((-5) <? 0)%float = true /\
  clean_numeric (VStr "0") = VFloat 0.
Proof. vm_compute. done. Qed.

(** C4, on the code: the first row's insert succeeds and is counted, the
    second row raises, and the rollback that answers it throws away the
    whole open transaction, the first row with it. The commit after the
    loop persists nothing. The film loader, which commits row by row,
    keeps film 1 of the same batch. *)
Theorem fact_rollback_discards_earlier_rows :
  let st := load_fact_table good_then_bad (connect empty_store) in
  fact_params <$> good_then_bad = [Some (1, fact_of_film_one); None] /\
  inserted st = 1%nat /\
  errors st = 1%nat /\
  FactFilmPerformance (committed (conn st)) = ∅ /\
  is_Some (DimFilm (committed (conn
    (load_dimension_film good_then_bad (connect empty_store)))) !! 1).
Proof. vm_compute. split_and!; try done. eauto. Qed.

(** In the other order the good row comes after the failure and is
    kept. *)
Example bad_then_good :
  let st := load_fact_table (clean [film_without_id; film_one]) (connect empty_store) in
  inserted st = 1%nat /\ errors st = 1%nat /\
  FactFilmPerformance (committed (conn st)) !! 1 = Some fact_of_film_one.
Proof. vm_compute. done. Qed.

(** C5, the counterexample: the first row met with key 120 has no date.
    Deduplicating first and excluding undated rows afterwards leaves
    nothing to insert; the loader excludes first, so it iterates over
    the second row and stores its date under key 120. *)
Lemma time_loader_filters_before_deduplicating :
  let key := fun r => RunTimeMinutes (raw r) in
  let dated := fun r => notna (ReleaseDate_Parsed r) in
  let st := load_dimension_time undated_then_dated (connect empty_store) in
  key <$> undated_then_dated = [VInt 120; VInt 120] /\
  ReleaseDate_Parsed <$> undated_then_dated = [VNone; VDate day_45000] /\
  List.filter dated (drop_duplicates key undated_then_dated) = [] /\
  time_data undated_then_dated = [transform_row film_dated] /\
  inserted st = 1%nat /\
  DimTime (committed (conn st)) !! 120 = Some stored_120.
Proof. vm_compute. done. Qed.

(** The example of the specification: two dated rows of 120 minutes;
    only the first one reaches the time dimension. *)
Example two_dated_rows_one_key :
  let st := load_dimension_time two_dated_films (connect empty_store) in
  time_data two_dated_films = [transform_row film_zero_budget] /\
  inserted st = 1%nat /\
  DimTime (committed (conn st)) !! 120 = Some stored_120.
Proof. vm_compute. done. Qed.

(** A second run on the warehouse the first run left changes nothing,
    also on the batch with the failing row. *)
Example second_run_changes_nothing :
  let run := run_load good_then_bad in
  run (run empty_store) = run empty_store /\
  DimDirector (run empty_store) !! 7 = Some "Director_7"%string /\
  DimDirector (run empty_store) !! 8 = Some "Director_8"%string.
Proof. vm_compute. done. Qed.

(** ** The theorems at work *)

(** C1 on the batch with a failing row, from an empty warehouse. *)
Lemma load_stage_idempotent_witness :
  run_load good_then_bad (run_load good_then_bad empty_store)
  = run_load good_then_bad empty_store.
Proof. exact (proj1 (load_stage_idempotent good_then_bad empty_store)). Defined.

(** C2 on the second worked row of the specification. *)
Lemma transform_data_measures_witness :
  ROI (transform_row film_profitable) = VFloat ((3000000 - 1000000) / 1000000).
Proof.
  pose proof (proj2 (transform_data_measures [film_profitable])) as H.
  apply Forall_inv in H. unfold derived_measures_ok in H.
  destruct H as (_ & _ & H & _). apply H; vm_compute; reflexivity.
Defined.

(** C3 on a text that is no number. *)
Lemma clean_numeric_cases_witness : clean_numeric (VStr "n/a") = VNone.
Proof.
  destruct (clean_numeric_cases (VStr "n/a")) as (_ & _ & _ & _ & _ & H & _).
  apply (H "n/a"%string); vm_compute; reflexivity.
Defined.

(** C5 on the example of the specification, two dated rows of 120
    minutes: the date stored under key 120 is the one of the first
    row. *)
Lemma time_dimension_load_witness :
  DimTime (committed (conn (load_dimension_time two_dated_films
                              (connect empty_store)))) !! 120 = Some stored_120.
Proof.
  destruct (time_dimension_load two_dated_films empty_store)
    as (_ & _ & _ & _ & _ & _ & H).
  apply (H [] (transform_row film_zero_budget) [transform_row film_profitable] 120
           stored_120).
  - vm_compute. reflexivity.
  - vm_compute. reflexivity.
  - intros r0 [].
  - vm_compute. reflexivity.
Defined.


(** C7 on the serial number 45000, as an integer and as a float. *)
Lemma parse_excel_date_cases_witness :
  parse_excel_date (VInt 45000) = VDate day_45000 /\
  parse_excel_date (VFloat 45000) = parse_excel_date (VInt 45000).
Proof.
  destruct parse_excel_date_cases as (_ & _ & _ & Hint & _ & Hfloat & _).
  split.
  - apply (Hint 45000); vm_compute; reflexivity.
  - apply (Hfloat 45000%float 45000). vm_compute. reflexivity.
Defined.

(** C8 on the director column of the batch with a failing row. *)
Lemma generic_dimension_load_witness :
  DimDirector (committed (conn (load_dimension_generic good_then_bad
     (connect empty_store) DimDirector_t (fun r => DirectorID (raw r)) "Director")))
  !! 8 = Some "Director_8"%string.
Proof.
  destruct (generic_dimension_load Director (fun r => DirectorID (raw r)) "Director"
              good_then_bad empty_store) as (_ & _ & _ & _ & H & _).
  apply (H (transform_row film_without_id)).
  - right. left. reflexivity.
  - vm_compute. reflexivity.
  - vm_compute. reflexivity.
  - vm_compute. reflexivity.
Defined.

(** C10 on [film_one]: the time key of its fact row is its running
    time. *)
Lemma fact_time_key_witness :
  fr_TimeID fact_of_film_one = fr_RunTimeMinutes fact_of_film_one /\
  fr_TimeID fact_of_film_one = py_int (RunTimeMinutes film_one).
Proof.
  destruct (fact_time_key good_then_bad empty_store) as [H _].
  destruct (H (transform_row film_one) 1 fact_of_film_one) as (H1 & _ & H2 & _).
  - vm_compute. reflexivity.
  - split; [exact H1|]. apply H2. vm_compute. reflexivity.
Defined.

(** ** The further properties at work *)

(** X2 on the last serial number a nanosecond pandas can parse, and on
    the first it cannot. *)
Lemma serial_number_range_witness :
  parse_excel_date (VInt 106751) = VDate (mkTimestamp ((106751 - 25569) * ns_per_day)) /\
  parse_excel_date (VInt 106752) = VNone.
Proof.
  split.
  - destruct (serial_number_range 106751) as [H _]; [done|done|].
    destruct H as [H _]; [lia|exact H].
  - destruct (serial_number_range 106752) as (_ & H & _); [done|done|].
    apply H. lia.
Defined.

(** X4 on [film_one]: its certificate is the text of [CertificateID]. *)
Lemma film_row_content_witness :
  film_params (transform_row film_one) = Some (1, film_row_one) /\
  exists n, py_int (VInt 12) = Some n /\ fl_Certificate film_row_one = Some (str_of_int n).
Proof.
  assert (film_params (transform_row film_one) = Some (1, film_row_one)) as H
    by (vm_compute; reflexivity).
  split; [exact H|].
  destruct (film_row_content _ _ _ H) as (_ & _ & _ & _ & _ & _ & Hc & _).
  apply (Hc (VInt 12)); vm_compute; reflexivity.
Defined.


(** X7 on a sheet whose second row has no [FilmID]: the fact loader ends
    as if the sheet were its third row alone. *)
Lemma fact_failure_erases_earlier_rows_witness :
  conn (load_fact_table (clean [film_one; film_without_id; film_profitable])
          (connect empty_store))
  = conn (load_fact_table (clean [film_profitable]) (connect empty_store)).
Proof.
  apply (fact_failure_erases_earlier_rows [transform_row film_one]
           [transform_row film_profitable] (transform_row film_without_id) empty_store).
  vm_compute. reflexivity.
Defined.

(** X8 on a sheet of two films that both load. *)
Lemma fact_insert_count_witness :
  let st := load_fact_table (clean [film_one; film_profitable]) (connect empty_store) in
  (inserted st + size (FactFilmPerformance empty_store)
   = size (FactFilmPerformance (committed (conn st))))%nat.
Proof.
  destruct (fact_insert_count (clean [film_one; film_profitable]) empty_store) as [_ H].
  apply H. vm_compute. reflexivity.
Defined.

(** X10 on a sheet of one row without a [FilmID]. *)
Lemma rows_without_key_witness :
  let st := load_fact_table (clean [film_without_id]) (connect empty_store) in
  conn st = connect empty_store /\ inserted st = 0%nat /\ errors st = 1%nat.
Proof.
  destruct (rows_without_key (clean [film_without_id]) empty_store) as [H _].
  apply H. intros r [<-|[]]. vm_compute. reflexivity.
Defined.



(** X13 on a sheet of two films loaded one after the other. *)
Lemma two_part_load_witness :
  run_load (clean ([film_one] ++ [film_profitable])) empty_store
  = run_load (clean [film_profitable]) (run_load (clean [film_one]) empty_store).
Proof.
  destruct (two_part_load [film_one] [film_profitable] empty_store)
    as (_ & _ & _ & _ & _ & _ & _ & _ & H).
  apply H. vm_compute. reflexivity.
Defined.

(** X15 on the directors 7 and 8 of the batch with a failing row. *)
Lemma placeholder_names_differ_witness :
  name_value "Director" 7 <> name_value "Director" 8.
Proof.
  apply (placeholder_names_differ Director (fun r => DirectorID (raw r)) "Director"
           good_then_bad empty_store 7 8).
  - vm_compute. reflexivity.
  - vm_compute. reflexivity.
  - vm_compute. reflexivity.
  - vm_compute. reflexivity.
  - discriminate.
Defined.

(** X3 on the film the server rejects: the row is counted. *)
Lemma film_row_failure_witness :
  errors (load_film_row (db := int4_film_keys) (start (connect empty_store))
            (transform_row film_out_of_range)) = 1%nat.
Proof.
  destruct (film_row_failure (db := int4_film_keys) (start (connect empty_store))
              (transform_row film_out_of_range)) as [H _]; [reflexivity|].
  rewrite H. vm_compute. reflexivity.
Defined.

(** X9 on the film without a [FilmID]: the row is counted. *)
Lemma fact_row_failure_witness :
  errors (load_fact_row (start (connect empty_store)) (transform_row film_without_id))
  = 1%nat.
Proof.
  destruct (fact_row_failure (start (connect empty_store))
              (transform_row film_without_id)) as [H _]; [reflexivity|].
  rewrite H. vm_compute. reflexivity.
Defined.
